(** * GoDaddy API client ([provider/godaddy/client.go])

    A shallow embedding of the request pipeline of the GoDaddy client:
    [NewClient], [NewRequest], [Do], [CallAPIWithContext],
    [UnmarshalResponse] and [validate], together with the library
    functions whose results decide the control flow
    ([strconv.ParseInt], [rand.Int63n], [errors.As], the struct decoding
    of [encoding/json]).

    Go's [int] and [int64] are 64-bit two's-complement integers; they are
    embedded in [Z] and every arithmetic result is passed through
    [wrap64].  Effects (the transport, the rate limiter, the random
    source, [time.Sleep], the logger, response bodies) are embedded in a
    state monad over an explicit world that records a chronological
    trace. *)

From Stdlib Require Import ZArith List String Ascii Bool Lia.
From Stdlib Require Import DecimalString.
From Stdlib Require DecimalPos.
Import ListNotations.

Local Open Scope string_scope.
Local Open Scope Z_scope.

(** ** Machine integers *)

Definition int64_min : Z := - 2 ^ 63.
Definition int64_max : Z := 2 ^ 63 - 1.

(** Two's-complement wrap-around of a 64-bit signed integer. *)
Definition wrap64 (z : Z) : Z := (z + 2 ^ 63) mod 2 ^ 64 - 2 ^ 63.

(** [time.Second], in nanoseconds ([time.Duration] is an [int64]). *)
Definition Second : Z := 1000000000.

(** [DefaultTimeout = 180 * time.Second] *)
Definition DefaultTimeout : Z := wrap64 (180 * Second).

(** ** Strings *)

(** The double-quote character, and a string between double quotes. *)
Definition dquote : string := String (ascii_of_nat 34) EmptyString.
Definition quoted (s : string) : string := dquote ++ s ++ dquote.

(** [fmt.Sprintf("%d", n)] *)
Definition itoa (n : Z) : string := NilZero.string_of_int (Z.to_int n).

(** ** [strconv.ParseInt(s, 10, 0)] on a 64-bit platform *)

Definition digit_of (c : ascii) : option Z :=
  let n := Z.of_nat (nat_of_ascii c) in
  if (48 <=? n) && (n <=? 57) then Some (n - 48) else None.

(** The digit loop of [ParseUint] in base 10: every byte must be a digit
    (an underscore is only accepted with base 0). *)
Fixpoint parse_digits (s : string) (acc : Z) : option Z :=
  match s with
  | EmptyString => Some acc
  | String c rest =>
      match digit_of c with
      | Some d => parse_digits rest (10 * acc + d)
      | None => None
      end
  end.

(** [ParseUint]: the empty string is a syntax error. *)
Definition parse_unsigned (s : string) : option Z :=
  match s with
  | EmptyString => None
  | _ => parse_digits s 0
  end.

(** [ParseInt]: [None] stands for a non-nil error ([ErrSyntax] or
    [ErrRange]; the caller only tests [err != nil]). *)
Definition ParseInt (s : string) : option Z :=
  match s with
  | EmptyString => None
  | String c rest =>
      let neg := Ascii.eqb c "-" in
      let body := if Ascii.eqb c "+" || neg then rest else s in
      match parse_unsigned body with
      | None => None
      | Some un =>
          let cutoff := 2 ^ 63 in
          if negb neg && (cutoff <=? un) then None
          else if neg && (cutoff <? un) then None
          else Some (if neg then - un else un)
      end
  end.

(** ** [rand.Int63n]

    [Int63n(n)] panics when [n <= 0]; otherwise it returns [v % n] for the
    raw 63-bit draw [v] it accepts. *)
Definition Int63n (raw n : Z) : option Z :=
  if n <=? 0 then None else Some (raw mod n).

(** ** The retry delay

    [retryAfterSec := retryAfter + jitter/2] and
    [sleepTime := time.Duration(retryAfterSec) * time.Second], both in
    [int64] arithmetic; Go's [/] truncates toward zero. *)
Definition retryAfterSec (retryAfter jitter : Z) : Z :=
  wrap64 (retryAfter + Z.quot jitter 2).

Definition sleepTime (retryAfter jitter : Z) : Z :=
  wrap64 (retryAfterSec retryAfter jitter * Second).

(** ** HTTP headers *)

Definition Header := list (string * list string).

Fixpoint Header_lookup (h : Header) (key : string) : list string :=
  match h with
  | [] => []
  | (k, vs) :: rest => if String.eqb k key then vs else Header_lookup rest key
  end.

(** [Header.Get]: the first value of the key, or the empty string. *)
Definition Header_Get (h : Header) (key : string) : string :=
  match Header_lookup h key with
  | [] => EmptyString
  | v :: _ => v
  end.

(** [Header.Set]: replaces the values of the key. *)
Fixpoint Header_Set (h : Header) (key value : string) : Header :=
  match h with
  | [] => [(key, [value])]
  | (k, vs) :: rest =>
      if String.eqb k key then (k, [value]) :: rest
      else (k, vs) :: Header_Set rest key value
  end.

(** ** Errors *)

(** [APIError] *)
Record APIError := mkAPIError { Code : string; Message : string }.

Definition ErrCodeQuotaExceeded : string := "QUOTA_EXCEEDED".

(** The error values that flow through the client.  [ErrAPI] is a
    [*APIError]; [ErrWrap] is [fmt.Errorf("...: %w", err)]. *)
Inductive error : Type :=
| ErrTransport (msg : string)
| ErrLimiter (msg : string)
| ErrWrap (prefix : string) (inner : error)
| ErrAPI (e : APIError)
| ErrJSONSyntax
| ErrJSONType (value field : string)
| ErrRead (msg : string)
| ErrMarshal (msg : string)
| ErrNewRequest (msg : string).

(** [errors.As(err, &apiErr)] with [apiErr : *APIError]: walks the
    [Unwrap] chain. *)
Fixpoint errors_As_APIError (err : error) : option APIError :=
  match err with
  | ErrAPI e => Some e
  | ErrWrap _ inner => errors_As_APIError inner
  | _ => None
  end.

(** ** JSON values and decoding into [APIError] *)

#[local] Set Warnings "-register-all".
Inductive JSON : Type :=
| JNull
| JBool (b : bool)
| JNumber (literal : string)
| JString (s : string)
| JArray (items : list JSON)
| JObject (members : list (string * JSON)).

Definition json_kind (v : JSON) : string :=
  match v with
  | JNull => "null"
  | JBool _ => "bool"
  | JNumber _ => "number"
  | JString _ => "string"
  | JArray _ => "array"
  | JObject _ => "object"
  end.

Definition upper_ascii (c : ascii) : ascii :=
  let n := nat_of_ascii c in
  if (97 <=? n)%nat && (n <=? 122)%nat then ascii_of_nat (n - 32) else c.

(** [foldName] of [encoding/json]: ASCII letters go to upper case; the
    only other runes whose fold is an ASCII letter are U+017F (bytes C5 BF,
    folds to S) and U+212A (bytes E2 84 AA, folds to K). *)
Fixpoint foldName (s : string) : string :=
  match s with
  | EmptyString => EmptyString
  | String c rest =>
      match nat_of_ascii c, rest with
      | 197%nat, String c1 rest1 =>
          if (nat_of_ascii c1 =? 191)%nat then String "S" (foldName rest1)
          else String c (foldName rest)
      | 226%nat, String c1 (String c2 rest2) =>
          if (nat_of_ascii c1 =? 132)%nat && (nat_of_ascii c2 =? 170)%nat
          then String "K" (foldName rest2)
          else String c (foldName rest)
      | _, _ => String (upper_ascii c) (foldName rest)
      end
  end.

(** A JSON member name selects the struct field whose name it equals
    exactly or, failing that, up to folding. *)
Definition field_matches (field key : string) : bool :=
  String.eqb key field || String.eqb (foldName key) (foldName field).

(** Decoder state of one [json.Unmarshal] call: the struct being filled
    and the first saved error. *)
Definition decode_state : Type := APIError * option error.

Definition saveError (st : decode_state) (e : error) : decode_state :=
  match snd st with
  | Some _ => st
  | None => (fst st, Some e)
  end.

(** Storing a JSON value into a [string] field: a string is stored, [null]
    is ignored, anything else is an [UnmarshalTypeError] that is saved
    while decoding goes on. *)
Definition store_string (field : string) (v : JSON)
    (set : string -> APIError -> APIError) (st : decode_state) : decode_state :=
  match v with
  | JString s => (set s (fst st), snd st)
  | JNull => st
  | _ => saveError st (ErrJSONType (json_kind v) field)
  end.

Definition set_Code (s : string) (a : APIError) : APIError :=
  {| Code := s; Message := Message a |}.
Definition set_Message (s : string) (a : APIError) : APIError :=
  {| Code := Code a; Message := s |}.

Definition decode_member (st : decode_state) (kv : string * JSON) : decode_state :=
  let (key, v) := kv in
  if field_matches "Code" key then store_string "Code" v set_Code st
  else if field_matches "Message" key then store_string "Message" v set_Message st
  else st.

(** Decoding a parsed JSON document into [*APIError]. *)
Definition decode_APIError (v : JSON) (a : APIError) : decode_state :=
  match v with
  | JObject members => fold_left decode_member members (a, None)
  | JNull => (a, None)
  | _ => (a, Some (ErrJSONType (json_kind v) "APIError"))
  end.

(** ** Requests and responses *)

Inductive Context : Type :=
| Background
| Derived (id : nat).

Record Request := mkRequest {
  Method : string;
  URL : string;
  ReqHeader : Header;
  ReqBody : string;
  Ctx : Context
}.

(** A response; [BodyId] identifies the body stream, [BodyData] is what
    [io.ReadAll] returns for it. *)
Record Response := mkResponse {
  BodyId : nat;
  StatusCode : Z;
  RespHeader : Header;
  BodyData : string + error
}.

(** ** The client *)

(** The [http.Client] the field [Client.Client] points to. *)
Record HttpClient := mkHttpClient { hcTimeout : Z }.

(** Parameters of the token bucket ([rate.NewLimiter(rate.Every(d), b)]). *)
Record Limiter := mkLimiter { every : Z; burst : Z }.

(** Identity of an implementation of the [Logger] interface. *)
Definition Logger : Type := nat.

Record Client := mkClient {
  APIKey : string;
  APISecret : string;
  APIEndPoint : string;
  Client_Client : HttpClient;
  Ratelimiter : Limiter;
  Client_Logger : option Logger;
  Timeout : Z
}.

(** ** The world *)

Inductive Event : Type :=
| EvLogRequest (l : Logger) (req : Request)
| EvLogResponse (l : Logger) (resp : Response)
| EvWait (ctx : Context) (err : option error)
| EvSend (req : Request)
| EvSleep (d : Z)
| EvLogError (msg : string)
| EvReadAll (id : nat)
| EvClose (id : nat).

(** Number of transport sends, limiter waits and random draws made so
    far, tokens taken from the limiter, and the chronological trace. *)
Record World := mkWorld {
  sends : nat;
  waits : nat;
  draws : nat;
  tokens : nat;
  trace : list Event
}.

Definition World0 : World := mkWorld 0 0 0 0 [].

Record St := mkSt { self : Client; world : World }.

(** A computation returns or panics. *)
Inductive outcome (A : Type) : Type :=
| Ret (a : A)
| Panic (msg : string).
Arguments Ret {A} a.
Arguments Panic {A} msg.

Definition M (A : Type) : Type := St -> outcome A * St.

Definition ret {A} (a : A) : M A := fun s => (Ret a, s).

Definition bind {A B} (m : M A) (k : A -> M B) : M B :=
  fun s =>
    match m s with
    | (Ret a, s') => k a s'
    | (Panic msg, s') => (Panic msg, s')
    end.

Declare Scope go_scope.
Delimit Scope go_scope with go.
Notation "x <- m ;; k" := (bind m (fun x => k))
  (at level 100, m at next level, right associativity) : go_scope.
Notation "m ;; k" := (bind m (fun _ => k))
  (at level 100, right associativity) : go_scope.

Definition get_self : M Client := fun s => (Ret (self s), s).
Definition put_self (c : Client) : M unit :=
  fun s => (Ret tt, mkSt c (world s)).

Definition emit (e : Event) : M unit :=
  fun s =>
    let w := world s in
    (Ret tt, mkSt (self s)
       (mkWorld (sends w) (waits w) (draws w) (tokens w) (trace w ++ [e])%list)).

Local Open Scope go_scope.

(** [defer d] around [body]: [d] runs when [body] returns or panics. *)
Definition with_defer {A} (d : M unit) (body : M A) : M A :=
  fun s =>
    let (o, s1) := body s in
    let (_, s2) := d s1 in
    (o, s2).

Section Pipeline.

(** Types of the values behind the [interface{}] arguments [reqBody]
    and [resType]. *)
Variables ReqBodyT TargetT : Type.

(** Everything the file calls but does not define: [encoding/json],
    [http.NewRequest]'s validation, [externaldns.UserAgent()], the
    constant [domainsURI], the [http.Client]'s sends, the limiter's
    waits and the raw draws of the random source (each indexed by the
    number of earlier calls). *)
Record Env := mkEnv {
  json_Marshal : ReqBodyT -> string + error;
  json_parse : string -> option JSON;
  json_Unmarshal : string -> TargetT -> option error;
  http_NewRequest : string -> string -> option error;
  UserAgent : string;
  domainsURI : string;
  RoundTrip : nat -> Request -> Response + error;
  LimiterWait : nat -> Context -> option error;
  Int63 : nat -> Z
}.

Variable env : Env.

(** *** Primitive effects *)

(** [c.Ratelimiter.Wait(ctx)]: a token is taken only when the wait
    succeeds. *)
Definition Ratelimiter_Wait (ctx : Context) : M (option error) :=
  fun s =>
    let w := world s in
    let r := LimiterWait env (waits w) ctx in
    let took := match r with None => 1%nat | Some _ => 0%nat end in
    (Ret r, mkSt (self s)
       (mkWorld (sends w) (S (waits w)) (draws w) (tokens w + took)
          (trace w ++ [EvWait ctx r])%list)).

(** [c.Client.Do(req)] *)
Definition Client_Do (req : Request) : M (Response + error) :=
  fun s =>
    let w := world s in
    (Ret (RoundTrip env (sends w) req), mkSt (self s)
       (mkWorld (S (sends w)) (waits w) (draws w) (tokens w)
          (trace w ++ [EvSend req])%list)).

(** [rand.Int63n(n)] *)
Definition rand_Int63n (n : Z) : M Z :=
  fun s =>
    let w := world s in
    match Int63n (Int63 env (draws w)) n with
    | None => (Panic "invalid argument to Int63n", s)
    | Some j =>
        (Ret j, mkSt (self s)
           (mkWorld (sends w) (waits w) (S (draws w)) (tokens w) (trace w)))
    end.

Definition time_Sleep (d : Z) : M unit := emit (EvSleep d).
Definition log_Error (msg : string) : M unit := emit (EvLogError msg).
Definition io_ReadAll (resp : Response) : M (string + error) :=
  emit (EvReadAll (BodyId resp)) ;; ret (BodyData resp).
Definition Body_Close (resp : Response) : M unit := emit (EvClose (BodyId resp)).

Definition LogRequest (req : Request) : M unit :=
  c <- get_self ;;
  match Client_Logger c with
  | Some l => emit (EvLogRequest l req)
  | None => ret tt
  end.

Definition LogResponse (resp : Response) : M unit :=
  c <- get_self ;;
  match Client_Logger c with
  | Some l => emit (EvLogResponse l resp)
  | None => ret tt
  end.

(** *** [NewRequest] *)

Definition NewRequest (method path : string) (reqBody : option ReqBodyT)
  : M (Request + error) :=
  c <- get_self ;;
  match (match reqBody with
         | Some v =>
             match json_Marshal env v with
             | inl b => inl (Some b)
             | inr err => inr err
             end
         | None => inl None
         end) with
  | inr err => ret (inr err)
  | inl body =>
      let target := (APIEndPoint c ++ path)%string in
      match http_NewRequest env method target with
      | Some err => ret (inr err)
      | None =>
          let h0 : Header := [] in
          let h1 := match body with
                    | Some _ => Header_Set h0 "Content-Type" "application/json;charset=utf-8"
                    | None => h0
                    end in
          let h2 := Header_Set h1 "Authorization"
                      ("sso-key " ++ APIKey c ++ ":" ++ APISecret c)%string in
          let h3 := Header_Set h2 "Accept" "application/json" in
          let h4 := Header_Set h3 "User-Agent" (UserAgent env) in
          let req := mkRequest method target h4
                       (match body with Some b => b | None => EmptyString end) Background in
          (* c.Client.Timeout = c.Timeout *)
          put_self (mkClient (APIKey c) (APISecret c) (APIEndPoint c)
                      (mkHttpClient (Timeout c))
                      (Ratelimiter c) (Client_Logger c) (Timeout c)) ;;
          ret (inl req)
      end
  end.

(** *** [Do] *)

(** The loop [for i := 1; i < 3 && resp != nil && resp.StatusCode == 429; i++].
    [inl resp] is the response held when the loop is left, [inr err] a
    [return nil, err] from inside it.  [budget] bounds the number of
    iterations; [Do] passes [2 = 3 - 1], for which the guard [i < 3]
    is false whenever the budget is spent ([retry_loop_spent]), so that
    a larger budget gives the same run ([retry_loop_budget]). *)
Fixpoint retry_loop (budget : nat) (i : Z) (req : Request) (resp : Response)
  : M (Response + error) :=
  match budget with
  | O => ret (inl resp)
  | S budget' =>
      if (i <? 3) && (StatusCode resp =? 429) then
        match ParseInt (Header_Get (RespHeader resp) "Retry-After") with
        | None =>
            log_Error "Rate-limited response did not contain a valid Retry-After header, quota likely exceeded" ;;
            ret (inl resp)
        | Some retryAfter =>
            jitter <- rand_Int63n retryAfter ;;
            time_Sleep (sleepTime retryAfter jitter) ;;
            _ <- Ratelimiter_Wait (Ctx req) ;;
            r <- Client_Do req ;;
            match r with
            | inr err =>
                ret (inr (ErrWrap "doing request after waiting for retry after" err))
            | inl resp' => retry_loop budget' (wrap64 (i + 1)) req resp'
            end
        end
      else ret (inl resp)
  end.

Definition Do (req : Request) : M (Response + error) :=
  LogRequest req ;;
  _ <- Ratelimiter_Wait (Ctx req) ;;
  r <- Client_Do req ;;
  match r with
  | inr err => ret (inr err)
  | inl resp =>
      r <- retry_loop 2 1 req resp ;;
      match r with
      | inr err => ret (inr err)
      | inl resp' => LogResponse resp' ;; ret (inl resp')
      end
  end.

(** *** [UnmarshalResponse] *)

Definition HTTPStatusCode (status : Z) : string :=
  ("HTTPStatus: " ++ itoa status)%string.

(** [json.Unmarshal(body, apiError)]: a syntax error is reported before
    anything is stored. *)
Definition json_Unmarshal_APIError (body : string) (a : APIError) : decode_state :=
  match json_parse env body with
  | None => (a, Some ErrJSONSyntax)
  | Some v => decode_APIError v a
  end.

Definition UnmarshalResponse (response : Response) (resType : option TargetT)
  : M (option error) :=
  with_defer (Body_Close response)
    (r <- io_ReadAll response ;;
     match r with
     | inr err => ret (Some err)
     | inl body =>
         if (StatusCode response <? 200) || (300 <=? StatusCode response) then
           let apiError := mkAPIError (HTTPStatusCode (StatusCode response)) EmptyString in
           match json_Unmarshal_APIError body apiError with
           | (_, Some err) => ret (Some err)
           | (apiError', None) => ret (Some (ErrAPI apiError'))
           end
         else
           match (String.length body =? 0)%nat, resType with
           | false, Some t => ret (json_Unmarshal env body t)
           | _, _ => ret None
           end
     end).

(** *** [CallAPIWithContext] and the wrappers *)

Definition WithContext (req : Request) (ctx : Context) : Request :=
  mkRequest (Method req) (URL req) (ReqHeader req) (ReqBody req) ctx.

Definition CallAPIWithContext (ctx : Context) (method path : string)
    (reqBody : option ReqBodyT) (resType : option TargetT) : M (option error) :=
  r <- NewRequest method path reqBody ;;
  match r with
  | inr err => ret (Some err)
  | inl req =>
      let req := WithContext req ctx in
      r <- Do req ;;
      match r with
      | inr err => ret (Some err)
      | inl response => UnmarshalResponse response resType
      end
  end.

Definition CallAPI (method path : string)
    (reqBody : option ReqBodyT) (resType : option TargetT) : M (option error) :=
  CallAPIWithContext Background method path reqBody resType.

Definition Get (url : string) (resType : option TargetT) : M (option error) :=
  CallAPI "GET" url None resType.

Definition Patch (url : string) (reqBody : option ReqBodyT) (resType : option TargetT)
  : M (option error) :=
  CallAPI "PATCH" url reqBody resType.

Definition Post (url : string) (reqBody : option ReqBodyT) (resType : option TargetT)
  : M (option error) :=
  CallAPI "POST" url reqBody resType.

Definition Put (url : string) (reqBody : option ReqBodyT) (resType : option TargetT)
  : M (option error) :=
  CallAPI "PUT" url reqBody resType.

Definition Delete (url : string) (resType : option TargetT) : M (option error) :=
  CallAPI "DELETE" url None resType.

(** [validate]: [response] is a nil [interface{}]. *)
Definition validate : M (option error) :=
  Get (domainsURI env) None.

(** *** [NewClient] *)

Definition NewClient (useOTE : bool) (apiKey apiSecret : string) (w : World)
  : outcome (Client + error) * World :=
  let endpoint :=
    if useOTE then "https://api.ote-godaddy.com" else "https://api.godaddy.com" in
  let client :=
    mkClient apiKey apiSecret endpoint (mkHttpClient 0)
      (mkLimiter Second 60) None DefaultTimeout in
  match validate (mkSt client w) with
  | (Panic msg, s) => (Panic msg, world s)
  | (Ret None, s) => (Ret (inl (self s)), world s)
  | (Ret (Some err), s) =>
      match errors_As_APIError err with
      | Some apiErr =>
          if negb (String.eqb (Code apiErr) ErrCodeQuotaExceeded)
          then (Ret (inr err), world s)
          else (Ret (inl (self s)), world s)
      | None => (Ret (inl (self s)), world s)
      end
  end.

End Pipeline.

Arguments mkEnv {ReqBodyT TargetT}.
Arguments json_Marshal {ReqBodyT TargetT}.
Arguments json_parse {ReqBodyT TargetT}.
Arguments json_Unmarshal {ReqBodyT TargetT}.
Arguments http_NewRequest {ReqBodyT TargetT}.
Arguments UserAgent {ReqBodyT TargetT}.
Arguments domainsURI {ReqBodyT TargetT}.
Arguments RoundTrip {ReqBodyT TargetT}.
Arguments LimiterWait {ReqBodyT TargetT}.
Arguments Int63 {ReqBodyT TargetT}.
Arguments Ratelimiter_Wait {ReqBodyT TargetT}.
Arguments Client_Do {ReqBodyT TargetT}.
Arguments rand_Int63n {ReqBodyT TargetT}.
Arguments NewRequest {ReqBodyT TargetT}.
Arguments retry_loop {ReqBodyT TargetT}.
Arguments Do {ReqBodyT TargetT}.
Arguments json_Unmarshal_APIError {ReqBodyT TargetT}.
Arguments UnmarshalResponse {ReqBodyT TargetT}.
Arguments CallAPIWithContext {ReqBodyT TargetT}.
Arguments CallAPI {ReqBodyT TargetT}.
Arguments Get {ReqBodyT TargetT}.
Arguments Patch {ReqBodyT TargetT}.
Arguments Post {ReqBodyT TargetT}.
Arguments Put {ReqBodyT TargetT}.
Arguments Delete {ReqBodyT TargetT}.
Arguments validate {ReqBodyT TargetT}.
Arguments NewClient {ReqBodyT TargetT}.

(** ** A reader for JSON text

    An instance of the syntax layer of [encoding/json] for running the
    pipeline on concrete bodies: the grammar of RFC 8259, member order
    and duplicates kept.  Strings with [\u] escapes are not read. *)
Module JSONReader.

Definition code (c : ascii) : nat := nat_of_ascii c.

Definition is_ws (c : ascii) : bool :=
  let n := code c in
  ((n =? 32) || (n =? 9) || (n =? 10) || (n =? 13))%nat.

Definition is_digit (c : ascii) : bool :=
  let n := code c in ((48 <=? n) && (n <=? 57))%nat.

Fixpoint skip_ws (s : string) : string :=
  match s with
  | String c rest => if is_ws c then skip_ws rest else s
  | EmptyString => s
  end.

Definition unescape (c : ascii) : option ascii :=
  match code c with
  | 34%nat => Some c
  | 92%nat => Some c
  | 47%nat => Some c
  | 98%nat => Some (ascii_of_nat 8)
  | 102%nat => Some (ascii_of_nat 12)
  | 110%nat => Some (ascii_of_nat 10)
  | 114%nat => Some (ascii_of_nat 13)
  | 116%nat => Some (ascii_of_nat 9)
  | _ => None
  end.

(** The text after an opening quote, up to the closing one. *)
Fixpoint read_string (s : string) (acc : string) : option (string * string) :=
  match s with
  | EmptyString => None
  | String c rest =>
      if (code c =? 34)%nat then Some (acc, rest)
      else if (code c =? 92)%nat then
        match rest with
        | String e rest' =>
            match unescape e with
            | Some ch => read_string rest' (acc ++ String ch EmptyString)%string
            | None => None
            end
        | EmptyString => None
        end
      else if (code c <? 32)%nat then None
      else read_string rest (acc ++ String c EmptyString)%string
  end.

Fixpoint take_digits (s : string) : string * string :=
  match s with
  | String c rest =>
      if is_digit c then
        let (ds, rest') := take_digits rest in (String c ds, rest')
      else (EmptyString, s)
  | EmptyString => (EmptyString, s)
  end.

Definition read_sign (minus_only : bool) (s : string) : string * string :=
  match s with
  | String c rest =>
      if (code c =? 45)%nat || (negb minus_only && (code c =? 43)%nat)
      then (String c EmptyString, rest) else (EmptyString, s)
  | EmptyString => (EmptyString, s)
  end.

Definition read_int_part (s : string) : option (string * string) :=
  match take_digits s with
  | (EmptyString, _) => None
  | (String d ds, rest) =>
      if (code d =? 48)%nat && negb (String.length ds =? 0)%nat then None
      else Some (String d ds, rest)
  end.

Definition read_frac (s : string) : option (string * string) :=
  match s with
  | String c rest =>
      if (code c =? 46)%nat then
        match take_digits rest with
        | (EmptyString, _) => None
        | (ds, rest') => Some (String c ds, rest')
        end
      else Some (EmptyString, s)
  | EmptyString => Some (EmptyString, s)
  end.

Definition read_exp (s : string) : option (string * string) :=
  match s with
  | String c rest =>
      if (code c =? 101)%nat || (code c =? 69)%nat then
        let (sg, rest1) := read_sign false rest in
        match take_digits rest1 with
        | (EmptyString, _) => None
        | (ds, rest') => Some ((String c sg ++ ds)%string, rest')
        end
      else Some (EmptyString, s)
  | EmptyString => Some (EmptyString, s)
  end.

Definition read_number (s : string) : option (string * string) :=
  let (sg, s1) := read_sign true s in
  match read_int_part s1 with
  | None => None
  | Some (ip, s2) =>
      match read_frac s2 with
      | None => None
      | Some (fp, s3) =>
          match read_exp s3 with
          | None => None
          | Some (ep, s4) => Some ((sg ++ ip ++ fp ++ ep)%string, s4)
          end
      end
  end.

Fixpoint strip_prefix (p s : string) : option string :=
  match p, s with
  | EmptyString, _ => Some s
  | String a p', String b s' => if Ascii.eqb a b then strip_prefix p' s' else None
  | _, EmptyString => None
  end.

(** [read_value] reads one value; [read_members] and [read_items] read
    what follows the opening brace or bracket, [first] telling whether
    a member or item has been read already. *)
Fixpoint read_value (fuel : nat) (s : string) : option (JSON * string) :=
  match fuel with
  | O => None
  | S fuel' =>
      match skip_ws s with
      | EmptyString => None
      | String c rest =>
          match code c with
          | 123%nat => read_members fuel' true rest []
          | 91%nat => read_items fuel' true rest []
          | 34%nat =>
              match read_string rest EmptyString with
              | Some (str, rest') => Some (JString str, rest')
              | None => None
              end
          | 116%nat =>
              option_map (fun r => (JBool true, r)) (strip_prefix "rue" rest)
          | 102%nat =>
              option_map (fun r => (JBool false, r)) (strip_prefix "alse" rest)
          | 110%nat =>
              option_map (fun r => (JNull, r)) (strip_prefix "ull" rest)
          | _ =>
              match read_number (String c rest) with
              | Some (lit, rest') => Some (JNumber lit, rest')
              | None => None
              end
          end
      end
  end
with read_members (fuel : nat) (first : bool) (s : string)
       (acc : list (string * JSON)) : option (JSON * string) :=
  match fuel with
  | O => None
  | S fuel' =>
      match skip_ws s with
      | EmptyString => None
      | String c rest =>
          if first && (code c =? 125)%nat then Some (JObject acc, rest)
          else if (code c =? 34)%nat then
            match read_string rest EmptyString with
            | None => None
            | Some (key, rest1) =>
                match skip_ws rest1 with
                | String colon rest2 =>
                    if (code colon =? 58)%nat then
                      match read_value fuel' rest2 with
                      | None => None
                      | Some (v, rest3) =>
                          let acc' := (acc ++ [(key, v)])%list in
                          match skip_ws rest3 with
                          | String d rest4 =>
                              if (code d =? 44)%nat
                              then read_members fuel' false rest4 acc'
                              else if (code d =? 125)%nat
                              then Some (JObject acc', rest4)
                              else None
                          | EmptyString => None
                          end
                      end
                    else None
                | EmptyString => None
                end
            end
          else None
      end
  end
with read_items (fuel : nat) (first : bool) (s : string)
       (acc : list JSON) : option (JSON * string) :=
  match fuel with
  | O => None
  | S fuel' =>
      match skip_ws s with
      | EmptyString => None
      | String c rest =>
          if first && (code c =? 93)%nat then Some (JArray acc, rest)
          else
            match read_value fuel' (String c rest) with
            | None => None
            | Some (v, rest1) =>
                let acc' := (acc ++ [v])%list in
                match skip_ws rest1 with
                | String d rest2 =>
                    if (code d =? 44)%nat
                    then read_items fuel' false rest2 acc'
                    else if (code d =? 93)%nat
                    then Some (JArray acc', rest2)
                    else None
                | EmptyString => None
                end
            end
      end
  end.

(** A whole document: one value and nothing but white space after it. *)
Definition read (s : string) : option JSON :=
  match read_value (S (String.length s)) s with
  | Some (v, rest) =>
      match skip_ws rest with
      | EmptyString => Some v
      | _ => None
      end
  | None => None
  end.

End JSONReader.

(** ** Observations on traces *)

Definition is_send (e : Event) : bool :=
  match e with EvSend _ => true | _ => false end.
Definition is_sleep (e : Event) : bool :=
  match e with EvSleep _ => true | _ => false end.
Definition is_log_request (e : Event) : bool :=
  match e with EvLogRequest _ _ => true | _ => false end.
Definition is_log_response (e : Event) : bool :=
  match e with EvLogResponse _ _ => true | _ => false end.
Definition is_log (e : Event) : bool := is_log_request e || is_log_response e.
Definition is_close_of (id : nat) (e : Event) : bool :=
  match e with EvClose id' => Nat.eqb id id' | _ => false end.

(** What the retry loop can do: sleep, wait, send, report an error. *)
Definition is_loop_event (e : Event) : bool :=
  match e with
  | EvSleep _ | EvWait _ _ | EvSend _ | EvLogError _ => true
  | _ => false
  end.

Definition count (p : Event -> bool) (t : list Event) : nat :=
  List.length (filter p t).

(** The trace without the logger's events. *)
Definition unlogged (t : list Event) : list Event :=
  filter (fun e => negb (is_log e)) t.

(** The same client without its logger. *)
Definition without_logger (c : Client) : Client :=
  mkClient (APIKey c) (APISecret c) (APIEndPoint c) (Client_Client c)
    (Ratelimiter c) None (Timeout c).

(** The write [c.Client.Timeout = c.Timeout]. *)
Definition with_request_timeout (c : Client) : Client :=
  mkClient (APIKey c) (APISecret c) (APIEndPoint c) (mkHttpClient (Timeout c))
    (Ratelimiter c) (Client_Logger c) (Timeout c).

(** ** Concrete worlds *)

Module Scenario.

Definition env_of (rt : nat -> Request -> Response + error)
    (lw : nat -> Context -> option error) (rng : nat -> Z) : Env unit unit :=
  mkEnv (fun _ => inl "{}"%string)
        JSONReader.read
        (fun body _ =>
           match JSONReader.read body with
           | Some _ => None
           | None => Some ErrJSONSyntax
           end)
        (fun _ _ => None)
        "ExternalDNS/unknown"
        "/v1/domains?statuses=ACTIVE,PENDING_DNS_ACTIVE"
        rt lw rng.

Definition granted : nat -> Context -> option error := fun _ _ => None.
Definition zeros : nat -> Z := fun _ => 0.

(** The error envelope [{"code":c,"message":m}]. *)
Definition envelope (c m : string) : string :=
  ("{" ++ quoted "code" ++ ":" ++ quoted c ++ ","
       ++ quoted "message" ++ ":" ++ quoted m ++ "}")%string.

Definition throttled (id : nat) (retryAfter : string) : Response :=
  mkResponse id 429 [("Retry-After"%string, [retryAfter])]
    (inl (envelope "QUOTA_EXCEEDED" "limit hit")).

Definition throttled_bare (id : nat) : Response :=
  mkResponse id 429 [] (inl (envelope "QUOTA_EXCEEDED" "limit hit")).

Definition ok_empty (id : nat) : Response :=
  mkResponse id 200 [] (inl EmptyString).

Definition failed (id : nat) (status : Z) (c m : string) : Response :=
  mkResponse id status [] (inl (envelope c m)).

(** Every send is answered 429 with the given [Retry-After]. *)
Definition always_throttled (retryAfter : string) : nat -> Request -> Response + error :=
  fun k _ => inl (throttled k retryAfter).

(** One 429 with [Retry-After: 1], then 200. *)
Definition throttled_once : nat -> Request -> Response + error :=
  fun k _ => match k with
             | O => inl (throttled 0 "1")
             | _ => inl (ok_empty k)
             end.

Definition always_ok : nat -> Request -> Response + error :=
  fun k _ => inl (ok_empty k).

Definition always (r : nat -> Response) : nat -> Request -> Response + error :=
  fun k _ => inl (r k).

Definition unreachable : nat -> Request -> Response + error :=
  fun _ _ => inr (ErrTransport "dial tcp: connection refused").

(** The limiter refuses every wait, as for a context that is canceled
    or whose deadline the wait would exceed. *)
Definition refused : nat -> Context -> option error :=
  fun _ _ => Some (ErrLimiter "rate: Wait(n=1) would exceed context deadline").

Definition client0 (logger : option Logger) : Client :=
  mkClient "key" "secret" "https://api.godaddy.com" (mkHttpClient 0)
    (mkLimiter Second 60) logger DefaultTimeout.

Definition request0 (ctx : Context) : Request :=
  mkRequest "GET" "https://api.godaddy.com/v1/domains"
    [("Accept"%string, ["application/json"%string])] EmptyString ctx.

Definition s0 (logger : option Logger) : St := mkSt (client0 logger) World0.

End Scenario.

(** ** States reached inside [Do] *)

Definition add_event (e : Event) (s : St) : St :=
  let w := world s in
  mkSt (self s) (mkWorld (sends w) (waits w) (draws w) (tokens w) (trace w ++ [e])%list).

Section Reached.
Context {ReqBodyT TargetT : Type}.
Variable env : Env ReqBodyT TargetT.

(** After the draw, the sleep, the wait and the send of one retry. *)
Definition retried (req : Request) (n j : Z) (s : St) : St :=
  let w := world s in
  let r := LimiterWait env (waits w) (Ctx req) in
  let took := match r with None => 1%nat | Some _ => 0%nat end in
  mkSt (self s)
    (mkWorld (S (sends w)) (S (waits w)) (S (draws w)) (tokens w + took)
       (((trace w ++ [EvSleep (sleepTime n j)]) ++ [EvWait (Ctx req) r])
          ++ [EvSend req])%list).

(** After the request hook, the first wait and the first send. *)
Definition started (req : Request) (s : St) : St :=
  let w := world s in
  let t0 := match Client_Logger (self s) with
            | Some l => (trace w ++ [EvLogRequest l req])%list
            | None => trace w
            end in
  let r := LimiterWait env (waits w) (Ctx req) in
  let took := match r with None => 1%nat | Some _ => 0%nat end in
  mkSt (self s)
    (mkWorld (S (sends w)) (S (waits w)) (draws w) (tokens w + took)
       ((t0 ++ [EvWait (Ctx req) r]) ++ [EvSend req])%list).

(** After the response hook. *)
Definition finished (resp : Response) (s : St) : St :=
  match Client_Logger (self s) with
  | Some l => add_event (EvLogResponse l resp) s
  | None => s
  end.
End Reached.

Definition unparsable (s : St) : St :=
  add_event (EvLogError "Rate-limited response did not contain a valid Retry-After header, quota likely exceeded") s.

(** Two states agree when their counters do (the retry loop reads
    nothing else of the state). *)
Definition agree (s1 s2 : St) : Prop :=
  sends (world s1) = sends (world s2) /\ waits (world s1) = waits (world s2) /\
  draws (world s1) = draws (world s2) /\ tokens (world s1) = tokens (world s2).

(** After [UnmarshalResponse]: the body was read, then closed. *)
Definition closed (resp : Response) (s : St) : St :=
  add_event (EvClose (BodyId resp)) (add_event (EvReadAll (BodyId resp)) s).

(** ** What a JSON object supplies for a field

    The value an object supplies for a [string] field is that of its
    last member of type string whose name selects the field. *)
Fixpoint supplied (field : string) (members : list (string * JSON)) : option string :=
  match members with
  | [] => None
  | (key, v) :: rest =>
      match supplied field rest with
      | Some s => Some s
      | None =>
          if field_matches field key then
            match v with JString s => Some s | _ => None end
          else None
      end
  end.

Definition selects_field (key : string) : bool :=
  field_matches "Code" key || field_matches "Message" key.

(** Every member that selects a field of [APIError] holds a string or
    [null]. *)
Definition well_typed (members : list (string * JSON)) : bool :=
  forallb (fun kv : string * JSON =>
             negb (selects_field (fst kv)) ||
             match snd kv with JString _ | JNull => true | _ => false end)
          members.

Definition or_else (o : option string) (d : string) : string :=
  match o with Some s => s | None => d end.

(** The struct literal of [NewClient]. *)
Definition fresh_client (useOTE : bool) (apiKey apiSecret : string) : Client :=
  mkClient apiKey apiSecret
    (if useOTE then "https://api.ote-godaddy.com" else "https://api.godaddy.com")
    (mkHttpClient 0) (mkLimiter Second 60) None DefaultTimeout.

(** ** The shape of a retry run

    What the retry loop appends to the trace: blocks of a sleep, a wait on
    the request's context and a send of the request, possibly ended by
    the error line of an unusable [Retry-After]. *)
Inductive retry_blocks (req : Request) : list Event -> Prop :=
| blocks_done : retry_blocks req []
| blocks_unparsable (msg : string) : retry_blocks req [EvLogError msg]
| blocks_retry (d : Z) (r : option error) (t : list Event) :
    retry_blocks req t ->
    retry_blocks req (EvSleep d :: EvWait (Ctx req) r :: EvSend req :: t).

Definition is_wait (e : Event) : bool :=
  match e with EvWait _ _ => true | _ => false end.
Definition is_read (e : Event) : bool :=
  match e with EvReadAll _ => true | _ => false end.
Definition is_close (e : Event) : bool :=
  match e with EvClose _ => true | _ => false end.

(** The hook call that opens [Do] and the one that ends it. *)
Definition request_hook (c : Client) (req : Request) : list Event :=
  match Client_Logger c with
  | Some l => [EvLogRequest l req]
  | None => []
  end.

Definition response_hook (c : Client) (o : outcome (Response + error)) : list Event :=
  match Client_Logger c, o with
  | Some l, Ret (inl resp) => [EvLogResponse l resp]
  | _, _ => []
  end.

(** An event that is a wait or a send uses the request: its context,
    respectively the request itself. *)
Definition uses_request (req : Request) (e : Event) : Prop :=
  match e with
  | EvSend r => r = req
  | EvWait c _ => c = Ctx req
  | _ => True
  end.

(** ** The text of an integer *)

Fixpoint all_digits (s : string) : bool :=
  match s with
  | EmptyString => true
  | String c rest =>
      match digit_of c with
      | Some _ => all_digits rest
      | None => false
      end
  end.

(** The text without its leading sign, if it has one. *)
Definition unsigned_part (s : string) : string :=
  match s with
  | String c rest => if Ascii.eqb c "+" || Ascii.eqb c "-" then rest else s
  | EmptyString => s
  end.

(** The value of a run of decimal digits read after [acc]. *)
Fixpoint digits_value (d : Decimal.uint) (acc : Z) : Z :=
  match d with
  | Decimal.Nil => acc
  | Decimal.D0 d => digits_value d (10 * acc)
  | Decimal.D1 d => digits_value d (10 * acc + 1)
  | Decimal.D2 d => digits_value d (10 * acc + 2)
  | Decimal.D3 d => digits_value d (10 * acc + 3)
  | Decimal.D4 d => digits_value d (10 * acc + 4)
  | Decimal.D5 d => digits_value d (10 * acc + 5)
  | Decimal.D6 d => digits_value d (10 * acc + 6)
  | Decimal.D7 d => digits_value d (10 * acc + 7)
  | Decimal.D8 d => digits_value d (10 * acc + 8)
  | Decimal.D9 d => digits_value d (10 * acc + 9)
  end.

(** ** More concrete worlds *)

Module Scenario2.
Import Scenario.

(** As [env_of], with an [http.NewRequest] that rejects the method
    [BAD METHOD] (a method must be a token). *)
Definition env_strict (rt : nat -> Request -> Response + error) : Env unit unit :=
  mkEnv (fun _ => inl "{}"%string)
        JSONReader.read
        (fun body _ =>
           match JSONReader.read body with
           | Some _ => None
           | None => Some ErrJSONSyntax
           end)
        (fun method _ =>
           if String.eqb method "BAD METHOD"
           then Some (ErrNewRequest "net/http: invalid method")
           else None)
        "ExternalDNS/unknown"
        "/v1/domains?statuses=ACTIVE,PENDING_DNS_ACTIVE"
        rt granted zeros.

(** A 200 response with a JSON body. *)
Definition ok_json (id : nat) : Response :=
  mkResponse id 200 [] (inl "[]"%string).

(** A response whose body cannot be read. *)
Definition truncated (id : nat) : Response :=
  mkResponse id 200 [] (inr (ErrRead "unexpected EOF")).

(** One 429 with [Retry-After: 1], then a transport failure. *)
Definition throttled_then_down : nat -> Request -> Response + error :=
  fun k _ => match k with
             | O => inl (throttled 0 "1")
             | _ => inr (ErrTransport "dial tcp: connection refused")
             end.

End Scenario2.

(** * Properties *)

Lemma wrap64_id (z : Z) : int64_min <= z <= int64_max -> wrap64 z = z.
Proof.
  unfold wrap64, int64_min, int64_max. intros H.
  rewrite Z.mod_small; lia.
Qed.

Lemma Int63n_range (raw n j : Z) : Int63n raw n = Some j -> 0 < n /\ 0 <= j < n.
Proof.
  unfold Int63n. destruct (n <=? 0) eqn:E; [discriminate|].
  intros H. injection H as <-. apply Z.leb_gt in E.
  split; [exact E|]. apply Z.mod_pos_bound. exact E.
Qed.

Lemma Int63n_panics (raw n : Z) : n <= 0 -> Int63n raw n = None.
Proof.
  intros H. unfold Int63n. apply Z.leb_le in H. rewrite H. reflexivity.
Qed.

Section LoopFacts.
Context {ReqBodyT TargetT : Type}.
Variable env : Env ReqBodyT TargetT.

(** One iteration of the retry loop, case by case. *)
Lemma retry_loop_S (b : nat) (i : Z) (req : Request) (resp : Response) (s : St) :
  retry_loop env (S b) i req resp s =
  if (i <? 3) && (StatusCode resp =? 429) then
    match ParseInt (Header_Get (RespHeader resp) "Retry-After") with
    | None => (Ret (inl resp), unparsable s)
    | Some n =>
        match Int63n (Int63 env (draws (world s))) n with
        | None => (Panic "invalid argument to Int63n", s)
        | Some j =>
            match RoundTrip env (sends (world s)) req with
            | inr err =>
                (Ret (inr (ErrWrap "doing request after waiting for retry after" err)),
                 retried env req n j s)
            | inl resp' =>
                retry_loop env b (wrap64 (i + 1)) req resp' (retried env req n j s)
            end
        end
    end
  else (Ret (inl resp), s).
Proof.
  simpl. destruct ((i <? 3) && (StatusCode resp =? 429)); [|reflexivity].
  destruct (ParseInt _) as [n|]; [|reflexivity].
  unfold bind, rand_Int63n.
  destruct (Int63n _ n) as [j|]; [|reflexivity].
  cbn. destruct (RoundTrip env (sends (world s)) req); reflexivity.
Qed.

(** When the budget is spent the guard [i < 3] is false: leaving the
    loop there is what the source does. *)
Lemma retry_loop_spent (b : nat) (i : Z) (req : Request) (resp : Response) (s : St) :
  3 <= i -> retry_loop env b i req resp s = (Ret (inl resp), s).
Proof.
  intros H. destruct b; [reflexivity|].
  rewrite retry_loop_S.
  assert (E : (i <? 3) = false) by (apply Z.ltb_ge; exact H).
  rewrite E. reflexivity.
Qed.

Lemma Do_unfold (req : Request) (s : St) :
  Do env req s =
  match RoundTrip env (sends (world s)) req with
  | inr err => (Ret (inr err), started env req s)
  | inl resp =>
      match retry_loop env 2 1 req resp (started env req s) with
      | (Ret (inl resp'), s') => (Ret (inl resp'), finished resp' s')
      | (Ret (inr err), s') => (Ret (inr err), s')
      | (Panic msg, s') => (Panic msg, s')
      end
  end.
Proof.
  destruct s as [c w].
  unfold Do, LogRequest, LogResponse, started, finished,
    Ratelimiter_Wait, Client_Do, emit, add_event, get_self, ret, bind.
  cbn [self world sends waits draws tokens trace].
  destruct (Client_Logger c) as [l|] eqn:EL;
    cbn [self world sends waits draws tokens trace];
    (destruct (RoundTrip env (sends w) req) as [resp|err]; [|reflexivity]);
    match goal with |- context [retry_loop env 2 1 req resp ?st] =>
      destruct (retry_loop env 2 1 req resp st) as [[[r|e]|m] s'] eqn:ER end;
    try reflexivity;
    destruct (Client_Logger (self s')); reflexivity.
Qed.

Lemma retry_loop_agree (b : nat) :
  forall (i : Z) (req : Request) (resp : Response) (s1 s2 : St),
    agree s1 s2 ->
    let r1 := retry_loop env b i req resp s1 in
    let r2 := retry_loop env b i req resp s2 in
    fst r1 = fst r2 /\ agree (snd r1) (snd r2) /\
    self (snd r1) = self s1 /\ self (snd r2) = self s2 /\
    (sends (world s1) <= sends (world (snd r1)) <= sends (world s1) + b)%nat /\
    exists t,
      trace (world (snd r1)) = (trace (world s1) ++ t)%list /\
      trace (world (snd r2)) = (trace (world s2) ++ t)%list /\
      Forall (fun e => is_loop_event e = true) t.
Proof.
  induction b as [|b IH]; intros i req resp s1 s2 HA.
  - cbn. repeat split; try apply HA; try lia.
    exists []. rewrite !app_nil_r. auto.
  - cbv zeta. rewrite !retry_loop_S.
    destruct ((i <? 3) && (StatusCode resp =? 429)).
    2:{ cbn. repeat split; try apply HA; try lia.
        exists []. rewrite !app_nil_r. auto. }
    destruct (ParseInt _) as [n|].
    2:{ cbn. repeat split; try apply HA; try lia.
        eexists. repeat split; try reflexivity. repeat constructor. }
    destruct HA as (Hs & Hw & Hd & Ht).
    rewrite <- Hd, <- Hs.
    destruct (Int63n _ n) as [j|].
    2:{ cbn. repeat split; auto; try lia.
        exists []. rewrite !app_nil_r. auto. }
    assert (HA' : agree (retried env req n j s1) (retried env req n j s2)).
    { unfold agree, retried. cbn. rewrite Hs, Hw, Hd, Ht. auto. }
    assert (HT : forall s, trace (world (retried env req n j s)) =
               (trace (world s) ++ [EvSleep (sleepTime n j);
                  EvWait (Ctx req) (LimiterWait env (waits (world s)) (Ctx req));
                  EvSend req])%list).
    { intros s. unfold retried. cbn. rewrite <- !app_assoc. reflexivity. }
    destruct (RoundTrip env (sends (world s1)) req) as [resp'|err].
    + specialize (IH (wrap64 (i + 1)) req resp' _ _ HA').
      cbv zeta in IH. destruct IH as (E1 & E2 & E3 & E4 & E5 & t & T1 & T2 & TF).
      split; [exact E1|]. split; [exact E2|].
      split; [exact E3|]. split; [exact E4|].
      split; [cbn in E5; lia|].
      eexists. rewrite T1, T2, !HT, <- !app_assoc, Hw.
      split; [reflexivity|]. split; [reflexivity|].
      repeat (constructor; [reflexivity|]). exact TF.
    + cbn [fst snd].
      split; [reflexivity|]. split; [exact HA'|].
      split; [reflexivity|]. split; [reflexivity|].
      split; [cbn; lia|].
      eexists. rewrite !HT, Hw.
      split; [reflexivity|]. split; [reflexivity|].
      repeat constructor.
Qed.


(** The loop's events are neither hook calls nor closes. *)
Lemma loop_events_quiet (t : list Event) :
  Forall (fun e => is_loop_event e = true) t ->
  Forall (fun e => is_log e = false) t.
Proof.
  apply Forall_impl. intros e H. destruct e; try reflexivity; discriminate H.
Qed.

Lemma loop_events_close_nothing (id : nat) (t : list Event) :
  Forall (fun e => is_loop_event e = true) t -> count (is_close_of id) t = 0%nat.
Proof.
  induction 1 as [|e t He _ IH]; [reflexivity|].
  unfold count in *. cbn [filter].
  destruct e; try discriminate He; exact IH.
Qed.

(** Single-run reading of [retry_loop_agree]. *)
Lemma retry_loop_frame (b : nat) (i : Z) (req : Request) (resp : Response) (s : St) :
  self (snd (retry_loop env b i req resp s)) = self s /\
  (sends (world s) <= sends (world (snd (retry_loop env b i req resp s)))
     <= sends (world s) + b)%nat /\
  exists t,
    trace (world (snd (retry_loop env b i req resp s))) = (trace (world s) ++ t)%list /\
    Forall (fun e => is_loop_event e = true) t.
Proof.
  assert (HA : agree s s) by (unfold agree; auto).
  destruct (retry_loop_agree b i req resp s s HA)
    as (_ & _ & E3 & _ & E5 & t & T1 & _ & TF).
  split; [exact E3|]. split; [exact E5|]. exists t. auto.
Qed.

(** A larger budget changes nothing: for the loop counter [i] the source
    loop runs at most [3 - i] times, so the budget 2 that [Do] passes
    with [i = 1] never cuts the source loop short. *)
Lemma retry_loop_budget (b : nat) :
  forall (i : Z) (req : Request) (resp : Response) (s : St),
    0 <= i -> 3 - i <= Z.of_nat b ->
    retry_loop env (S b) i req resp s = retry_loop env b i req resp s.
Proof.
  induction b as [|b IH]; intros i req resp s H0 Hb.
  - rewrite !retry_loop_spent by lia. reflexivity.
  - rewrite (retry_loop_S (S b)), (retry_loop_S b).
    destruct (i <? 3) eqn:Ei; [|reflexivity].
    apply Z.ltb_lt in Ei. cbn [andb].
    destruct (StatusCode resp =? 429); [|reflexivity].
    destruct (ParseInt _) as [n|]; [|reflexivity].
    destruct (Int63n _ n) as [j|]; [|reflexivity].
    destruct (RoundTrip env (sends (world s)) req) as [resp'|err]; [|reflexivity].
    rewrite (wrap64_id (i + 1)) by (unfold int64_min, int64_max; lia).
    apply IH; lia.
Qed.

Lemma Do_budget (b : nat) (req : Request) (resp : Response) (s : St) :
  retry_loop env (2 + b) 1 req resp s = retry_loop env 2 1 req resp s.
Proof.
  induction b as [|b IH]; [reflexivity|].
  rewrite <- IH. replace (2 + S b)%nat with (S (2 + b)) by lia.
  apply retry_loop_budget; lia.
Qed.

(** [Do] closes no response body. *)
Lemma Do_closes_nothing (req : Request) (s : St) (id : nat) :
  count (is_close_of id) (trace (world (snd (Do env req s)))) =
  count (is_close_of id) (trace (world s)).
Proof.
  assert (HS : count (is_close_of id) (trace (world (started env req s))) =
               count (is_close_of id) (trace (world s))).
  { unfold started, count. cbn [world trace].
    destruct (Client_Logger (self s)); rewrite !filter_app, !length_app; cbn; lia. }
  rewrite Do_unfold.
  destruct (RoundTrip env (sends (world s)) req) as [resp|err]; [|exact HS].
  destruct (retry_loop_frame 2 1 req resp (started env req s)) as (_ & _ & t & T & TF).
  apply (loop_events_close_nothing id) in TF.
  destruct (retry_loop env 2 1 req resp (started env req s)) as [[[r|e]|m] s'];
    cbn [snd] in *;
    try (unfold finished, add_event; destruct (Client_Logger (self s'));
         cbn [world trace]);
    rewrite T, <- HS; unfold count in *;
    rewrite ?filter_app, ?length_app, TF; cbn [filter is_close_of List.length]; lia.
Qed.

(** [Do] never sends more than three times, whatever the transport,
    the limiter and the random source do. *)
Lemma Do_at_most_three_sends (req : Request) (s : St) :
  (S (sends (world s)) <= sends (world (snd (Do env req s)))
     <= sends (world s) + 3)%nat.
Proof.
  rewrite Do_unfold.
  destruct (RoundTrip env (sends (world s)) req) as [resp|err].
  - destruct (retry_loop_frame 2 1 req resp (started env req s)) as (_ & H & _).
    destruct (retry_loop env 2 1 req resp (started env req s)) as [[[r|e]|m] s'];
      cbn [snd] in *; unfold finished, add_event;
      try destruct (Client_Logger (self s')); cbn in *; lia.
  - cbn. lia.
Qed.

(** When every send is answered 429 with a positive [Retry-After],
    [Do] sends three times and returns the third response. *)
Lemma Do_three_sends_when_throttled (req : Request) (s : St) :
  (forall k, exists resp n,
      RoundTrip env k req = inl resp /\ StatusCode resp = 429 /\
      ParseInt (Header_Get (RespHeader resp) "Retry-After") = Some n /\ 0 < n) ->
  exists resp3 s',
    Do env req s = (Ret (inl resp3), s') /\
    RoundTrip env (2 + sends (world s)) req = inl resp3 /\
    sends (world s') = (3 + sends (world s))%nat /\
    count is_sleep (trace (world s')) = (2 + count is_sleep (trace (world s)))%nat.
Proof.
  intros H.
  destruct (H (sends (world s))) as (r1 & n1 & R1 & S1 & P1 & N1).
  destruct (H (S (sends (world s)))) as (r2 & n2 & R2 & S2 & P2 & N2).
  destruct (H (S (S (sends (world s))))) as (r3 & n3 & R3 & S3 & P3 & N3).
  assert (E1 : (n1 <=? 0) = false) by (apply Z.leb_gt; exact N1).
  assert (E2 : (n2 <=? 0) = false) by (apply Z.leb_gt; exact N2).
  rewrite Do_unfold, R1.
  set (s1 := started env req s).
  assert (Hs1 : sends (world s1) = S (sends (world s))) by reflexivity.
  rewrite retry_loop_S, S1, P1.
  change ((1 <? 3) && (429 =? 429)) with true. cbv iota.
  unfold Int63n at 1. rewrite E1, Hs1, R2.
  set (s2 := retried env req n1 _ s1).
  assert (Hs2 : sends (world s2) = S (S (sends (world s)))) by reflexivity.
  rewrite retry_loop_S, S2, P2.
  change ((wrap64 (1 + 1) <? 3) && (429 =? 429)) with true. cbv iota.
  unfold Int63n at 1. rewrite E2, Hs2, R3.
  set (s3 := retried env req n2 _ s2).
  cbn [retry_loop ret].
  exists r3, (finished r3 s3).
  split; [reflexivity|]. split; [exact R3|].
  assert (T3 : trace (world s3) =
            (trace (world s1) ++ [EvSleep (sleepTime n1 (Int63 env (draws (world s1)) mod n1));
               EvWait (Ctx req) (LimiterWait env (waits (world s1)) (Ctx req)); EvSend req]
             ++ [EvSleep (sleepTime n2 (Int63 env (draws (world s2)) mod n2));
               EvWait (Ctx req) (LimiterWait env (waits (world s2)) (Ctx req)); EvSend req])%list).
  { unfold s3, s2, retried. cbn [world trace]. rewrite <- !app_assoc. reflexivity. }
  assert (T1 : count is_sleep (trace (world s1)) = count is_sleep (trace (world s))).
  { unfold s1, started, count. cbn [world trace].
    destruct (Client_Logger (self s)); rewrite !filter_app, !length_app; cbn; lia. }
  assert (F3 : sends (world (finished r3 s3)) = sends (world s3) /\
               count is_sleep (trace (world (finished r3 s3))) =
               count is_sleep (trace (world s3))).
  { unfold finished, add_event, count.
    destruct (Client_Logger (self s3)); cbn [world sends trace];
      [rewrite filter_app, length_app; cbn; lia | auto]. }
  destruct F3 as [F3a F3b]. rewrite F3a, F3b, T3.
  split; [reflexivity|].
  unfold count in *. rewrite !filter_app, !length_app, T1. cbn. lia.
Qed.


Lemma retried_trace (req : Request) (n j : Z) (s : St) :
  trace (world (retried env req n j s)) =
  (trace (world s) ++
     [EvSleep (sleepTime n j);
      EvWait (Ctx req) (LimiterWait env (waits (world s)) (Ctx req));
      EvSend req])%list.
Proof. unfold retried. cbn. rewrite <- !app_assoc. reflexivity. Qed.

Lemma sleepTime_exact (n j : Z) :
  0 < n -> 0 <= j < n -> n + j / 2 <= 9223372036 ->
  sleepTime n j = (n + j / 2) * Second.
Proof.
  intros Hn Hj Hb. unfold sleepTime, retryAfterSec.
  rewrite Z.quot_div_nonneg by lia.
  assert (0 <= j / 2) by (apply Z.div_pos; lia).
  rewrite (wrap64_id (n + j / 2)) by (unfold int64_min, int64_max; lia).
  apply wrap64_id. unfold int64_min, int64_max, Second. lia.
Qed.

(** C3 (amended): for a 429 response that the retry loop examines and
    whose [Retry-After] parses to [n > 0], the loop draws
    [j = Int63n(n)], which lies in [0, n) (and every value of [0, n) is
    a possible draw), and the next thing it does is to sleep for
    [sleepTime n j]; that duration is [n + floor(j/2)] seconds whenever
    this many seconds fit a 64-bit nanosecond duration
    ([n + floor(j/2) <= 9223372036]); for [Retry-After: 2] it is 2
    seconds, so [2 <= d < 3] seconds. *)
Theorem retry_sleep_is_base_plus_half_jitter
    (b : nat) (i : Z) (req : Request) (resp : Response) (s : St) (n : Z) :
  i < 3 ->
  StatusCode resp = 429 ->
  ParseInt (Header_Get (RespHeader resp) "Retry-After") = Some n ->
  0 < n ->
  let j := Int63 env (draws (world s)) mod n in
  Int63n (Int63 env (draws (world s))) n = Some j /\
  0 <= j < n /\
  (forall j0, 0 <= j0 < n -> Int63n j0 n = Some j0) /\
  (exists t,
      trace (world (snd (retry_loop env (S b) i req resp s))) =
      (trace (world s) ++ EvSleep (sleepTime n j) :: t)%list) /\
  (n + j / 2 <= 9223372036 -> sleepTime n j = (n + j / 2) * Second) /\
  (n = 2 -> 2 * Second <= sleepTime n j < 3 * Second).
Proof.
  intros Hi HS HP Hn j.
  assert (En : (n <=? 0) = false) by (apply Z.leb_gt; exact Hn).
  assert (EJ : Int63n (Int63 env (draws (world s))) n = Some j).
  { unfold Int63n. rewrite En. reflexivity. }
  assert (Hj : 0 <= j < n) by (apply Z.mod_pos_bound; exact Hn).
  split; [exact EJ|]. split; [exact Hj|].
  split.
  { intros j0 Hj0. unfold Int63n. rewrite En, Z.mod_small by exact Hj0. reflexivity. }
  split.
  { rewrite retry_loop_S, HS, HP, EJ.
    apply Z.ltb_lt in Hi. rewrite Hi. cbn [Z.eqb Pos.eqb andb].
    destruct (RoundTrip env (sends (world s)) req) as [resp'|err].
    - destruct (retry_loop_frame b (wrap64 (i + 1)) req resp' (retried env req n j s))
        as (_ & _ & t & T & _).
      rewrite T, retried_trace, <- app_assoc. cbn [app]. eexists. reflexivity.
    - cbn [snd]. rewrite retried_trace. cbn [app]. eexists. reflexivity. }
  split.
  { intros Hb. apply sleepTime_exact; assumption. }
  intros ->. rewrite sleepTime_exact; try lia;
    assert (j / 2 = 0) by (apply Z.div_small; lia);
    unfold Second; lia.
Qed.

Lemma ParseInt_absent (h : Header) :
  Header_lookup h "Retry-After" = [] ->
  ParseInt (Header_Get h "Retry-After") = None.
Proof. intros H. unfold Header_Get. rewrite H. reflexivity. Qed.

(** [UnmarshalResponse] reads the body, closes it, and returns a value
    that depends on the response only. *)
Lemma UnmarshalResponse_unfold (resp : Response) (resType : option TargetT) (s : St) :
  UnmarshalResponse env resp resType s =
  (Ret (match BodyData resp with
        | inr err => Some err
        | inl body =>
            if (StatusCode resp <? 200) || (300 <=? StatusCode resp) then
              match json_Unmarshal_APIError env body
                      (mkAPIError (HTTPStatusCode (StatusCode resp)) EmptyString) with
              | (_, Some err) => Some err
              | (apiError, None) => Some (ErrAPI apiError)
              end
            else
              match (String.length body =? 0)%nat, resType with
              | false, Some t => json_Unmarshal env body t
              | _, _ => None
              end
        end),
   closed resp s).
Proof.
  unfold UnmarshalResponse, with_defer, io_ReadAll, Body_Close, bind, ret, emit,
    closed, add_event.
  cbn [self world sends waits draws tokens trace].
  destruct (BodyData resp) as [body|err]; [|reflexivity].
  destruct ((StatusCode resp <? 200) || (300 <=? StatusCode resp)).
  - destruct (json_Unmarshal_APIError env body _) as [a [e|]]; reflexivity.
  - destruct (String.length body =? 0)%nat; [reflexivity|].
    destruct resType; reflexivity.
Qed.


Lemma unlogged_quiet (t : list Event) :
  Forall (fun e => is_log e = false) t -> unlogged t = t.
Proof.
  induction 1 as [|e t He _ IH]; [reflexivity|].
  unfold unlogged in *. cbn. rewrite He. cbn. rewrite IH. reflexivity.
Qed.

Lemma count_quiet (p : Event -> bool) (t : list Event) :
  (forall e, p e = true -> is_log e = true) ->
  Forall (fun e => is_log e = false) t -> count p t = 0%nat.
Proof.
  intros Hp. induction 1 as [|e t He _ IH]; [reflexivity|].
  unfold count in *. cbn. destruct (p e) eqn:E; [|exact IH].
  apply Hp in E. congruence.
Qed.

(** C7 (amended): with a logger configured, [Do] calls the request hook
    exactly once, as its first action (before the first wait and send),
    and the response hook exactly once, as its last action and on the
    response it returns; nothing is logged for the retried attempts in
    between, and the response hook is not called when [Do] returns an
    error or panics.  Logging does not alter the result: without the
    logger [Do] returns the same response or error and leaves the same
    trace apart from the logger's events. *)
Theorem Do_logs_once (req : Request) (s : St) (l : Logger) :
  Client_Logger (self s) = Some l ->
  let r := Do env req s in
  let r0 := Do env req (mkSt (without_logger (self s)) (world s)) in
  let last := match fst r with
              | Ret (inl resp) => [EvLogResponse l resp]
              | _ => []
              end in
  (exists t,
      Forall (fun e => is_log e = false) t /\
      trace (world (snd r)) =
      (trace (world s) ++ EvLogRequest l req :: t ++ last)%list) /\
  count is_log_request (trace (world (snd r))) =
    S (count is_log_request (trace (world s))) /\
  count is_log_response (trace (world (snd r))) =
    (List.length last + count is_log_response (trace (world s)))%nat /\
  fst r0 = fst r /\
  unlogged (trace (world (snd r0))) = unlogged (trace (world (snd r))).
Proof.
  intros HL r r0 last.
  assert (HA : agree (started env req s)
                 (started env req (mkSt (without_logger (self s)) (world s)))).
  { unfold agree, started. cbn. auto. }
  assert (HM : exists t,
      Forall (fun e => is_log e = false) t /\
      trace (world (snd r)) =
        (trace (world s) ++ EvLogRequest l req :: t ++ last)%list /\
      trace (world (snd r0)) = (trace (world s) ++ t)%list /\
      fst r0 = fst r).
  { subst r r0 last. rewrite !Do_unfold. cbn [world self].
    destruct (RoundTrip env (sends (world s)) req) as [resp|err].
    - destruct (retry_loop_agree 2 1 req resp _ _ HA)
        as (E1 & _ & E3 & E4 & _ & t & T1 & T2 & TF).
      apply loop_events_quiet in TF.
      destruct (retry_loop env 2 1 req resp (started env req s))
        as [o s1] eqn:R1.
      destruct (retry_loop env 2 1 req resp
                  (started env req (mkSt (without_logger (self s)) (world s))))
        as [o0 s2] eqn:R2.
      cbn [fst snd] in *. subst o0.
      assert (L1 : Client_Logger (self s1) = Some l).
      { rewrite E3. unfold started. cbn [self]. exact HL. }
      assert (L2 : Client_Logger (self s2) = None).
      { rewrite E4. reflexivity. }
      assert (S1 : trace (world (started env req s)) =
                (trace (world s) ++
                 [EvLogRequest l req;
                  EvWait (Ctx req) (LimiterWait env (waits (world s)) (Ctx req));
                  EvSend req])%list).
      { unfold started. cbn [world trace]. rewrite HL, <- !app_assoc. reflexivity. }
      assert (S2 : trace (world (started env req
                      (mkSt (without_logger (self s)) (world s)))) =
                (trace (world s) ++
                 [EvWait (Ctx req) (LimiterWait env (waits (world s)) (Ctx req));
                  EvSend req])%list).
      { unfold started. cbn. rewrite <- !app_assoc. reflexivity. }
      exists ([EvWait (Ctx req) (LimiterWait env (waits (world s)) (Ctx req));
                EvSend req] ++ t)%list.
      split; [repeat (constructor; [reflexivity|]); exact TF|].
      destruct o as [[resp'|e]|m]; cbn [fst snd]; unfold finished, add_event;
        rewrite ?L1, ?L2; cbn [world trace];
        rewrite T1, T2, S1, S2, <- ?app_assoc; cbn [app];
        rewrite ?app_nil_r; auto.
    - cbn [fst snd]. unfold started. cbn [self world trace Client_Logger without_logger].
      rewrite HL.
      exists [EvWait (Ctx req) (LimiterWait env (waits (world s)) (Ctx req)); EvSend req].
      split; [repeat constructor|].
      rewrite <- !app_assoc. cbn [app]. auto. }
  destruct HM as (t & TF & T1 & T0 & EQ).
  split; [exists t; auto|].
  assert (QL : Forall (fun e => is_log e = false) t) by exact TF.
  assert (C1 : count is_log_request t = 0%nat).
  { apply count_quiet; [|exact TF]. intros e He. unfold is_log. rewrite He. reflexivity. }
  assert (C2 : count is_log_response t = 0%nat).
  { apply count_quiet; [|exact TF]. intros e He. unfold is_log. rewrite He.
    apply orb_true_r. }
  assert (C3 : count is_log_request last = 0%nat /\
               count is_log_response last = List.length last /\
               unlogged last = []).
  { subst last. destruct (fst r) as [[resp|e]|m]; cbn; auto. }
  destruct C3 as (C3 & C4 & C5).
  split.
  { rewrite T1. unfold count in *.
    rewrite filter_app. cbn [filter is_log_request].
    rewrite filter_app, !length_app. cbn [List.length].
    rewrite length_app, C1, C3. lia. }
  split.
  { rewrite T1. unfold count in *.
    rewrite filter_app. cbn [filter is_log_response].
    rewrite filter_app, !length_app, C2, C4. lia. }
  split; [exact EQ|].
  rewrite T0, T1. unfold unlogged in *.
  rewrite !filter_app. cbn [filter is_log is_log_request orb negb].
  rewrite filter_app, C5, app_nil_r. reflexivity.
Qed.

(** *** Frame of a call *)

Lemma NewRequest_cases (method path : string) (reqBody : option ReqBodyT) (s : St) :
  (exists err, NewRequest env method path reqBody s = (Ret (inr err), s)) \/
  (exists req, NewRequest env method path reqBody s =
               (Ret (inl req), mkSt (with_request_timeout (self s)) (world s))).
Proof.
  unfold NewRequest, bind, get_self, put_self, ret.
  destruct reqBody as [v|].
  - destruct (json_Marshal env v) as [body|err]; [|left; eexists; reflexivity].
    destruct (http_NewRequest env method _) as [err|];
      [left|right]; eexists; reflexivity.
  - destruct (http_NewRequest env method _) as [err|];
      [left|right]; eexists; reflexivity.
Qed.

Lemma Do_self (req : Request) (s : St) : self (snd (Do env req s)) = self s.
Proof.
  rewrite Do_unfold.
  destruct (RoundTrip env (sends (world s)) req) as [resp|err]; [|reflexivity].
  destruct (retry_loop_frame 2 1 req resp (started env req s)) as (E & _).
  destruct (retry_loop env 2 1 req resp (started env req s)) as [[[r|e]|m] s'];
    cbn [snd] in *; try exact E.
  unfold finished, add_event. destruct (Client_Logger (self s')); exact E.
Qed.

Lemma UnmarshalResponse_self (resp : Response) (resType : option TargetT) (s : St) :
  self (snd (UnmarshalResponse env resp resType s)) = self s.
Proof. rewrite UnmarshalResponse_unfold. reflexivity. Qed.

Lemma CallAPIWithContext_self
    (ctx : Context) (method path : string)
    (reqBody : option ReqBodyT) (resType : option TargetT) (s : St) :
  self (snd (CallAPIWithContext env ctx method path reqBody resType s)) =
  self (snd (NewRequest env method path reqBody s)).
Proof.
  unfold CallAPIWithContext, bind.
  destruct (NewRequest env method path reqBody s) as [[[req|err]|m] s1];
    try reflexivity.
  pose proof (Do_self (WithContext req ctx) s1) as HD.
  destruct (Do env (WithContext req ctx) s1) as [[[resp|err]|m] s2];
    cbn [snd] in *; try exact HD.
  rewrite UnmarshalResponse_self. exact HD.
Qed.

(** C8 (amended): a call through the client leaves the client's own
    fields (key, secret, endpoint, rate limiter, logger, timeout) as
    they were.  [NewRequest] writes the client's [Timeout] into the
    [Timeout] of the underlying [http.Client] whenever it builds a
    request, and that is the only write: when [NewRequest] fails nothing
    changes, and neither [Do] nor [UnmarshalResponse] writes to the
    client. *)
Theorem call_writes_only_transport_timeout
    (ctx : Context) (method path : string)
    (reqBody : option ReqBodyT) (resType : option TargetT) (s : St) :
  let built := NewRequest env method path reqBody s in
  let s' := snd (CallAPIWithContext env ctx method path reqBody resType s) in
  world (snd built) = world s /\
  self (snd built) =
    match fst built with
    | Ret (inl _) => with_request_timeout (self s)
    | _ => self s
    end /\
  self s' = self (snd built) /\
  APIKey (self s') = APIKey (self s) /\
  APISecret (self s') = APISecret (self s) /\
  APIEndPoint (self s') = APIEndPoint (self s) /\
  Ratelimiter (self s') = Ratelimiter (self s) /\
  Client_Logger (self s') = Client_Logger (self s) /\
  Timeout (self s') = Timeout (self s) /\
  (forall req, self (snd (Do env req s)) = self s) /\
  (forall resp, self (snd (UnmarshalResponse env resp resType s)) = self s).
Proof.
  cbv zeta. rewrite CallAPIWithContext_self.
  destruct (NewRequest_cases method path reqBody s) as [[err ->]|[req ->]];
    cbn; repeat split; auto using Do_self, UnmarshalResponse_self.
Qed.

(** *** Decoding the error envelope *)

Lemma field_matches_fold (field key : string) :
  field_matches field key = true -> foldName key = foldName field.
Proof.
  unfold field_matches. intros H. apply orb_true_iff in H.
  destruct H as [H|H]; apply String.eqb_eq in H; congruence.
Qed.

Lemma Code_not_Message (key : string) :
  field_matches "Code" key = true -> field_matches "Message" key = false.
Proof.
  intros H. apply field_matches_fold in H.
  destruct (field_matches "Message" key) eqn:E; [|reflexivity].
  apply field_matches_fold in E. rewrite H in E. discriminate E.
Qed.

(** The struct that [json.Unmarshal] leaves behind holds, for each
    field, the value the object supplies, or what the field held. *)
Lemma decode_members_value (members : list (string * JSON)) :
  forall st : decode_state,
    fst (fold_left decode_member members st) =
    mkAPIError (or_else (supplied "Code" members) (Code (fst st)))
               (or_else (supplied "Message" members) (Message (fst st))).
Proof.
  induction members as [|[key v] rest IH]; intros [a e].
  - destruct a. reflexivity.
  - cbn [fold_left]. rewrite IH. cbn [supplied].
    destruct (supplied "Code" rest) as [c|], (supplied "Message" rest) as [m|];
      cbn [or_else]; try reflexivity;
      unfold decode_member;
      destruct (field_matches "Code" key) eqn:EC;
      try rewrite (Code_not_Message key EC);
      try destruct (field_matches "Message" key) eqn:EM;
      destruct v; cbn; unfold saveError; cbn; try destruct e; reflexivity.
Qed.

Lemma decode_members_no_error (members : list (string * JSON)) :
  forall st : decode_state,
    well_typed members = true -> snd st = None ->
    snd (fold_left decode_member members st) = None.
Proof.
  induction members as [|[key v] rest IH]; intros [a e] HW HE; [exact HE|].
  cbn [fold_left]. cbn in HW. apply andb_true_iff in HW. destruct HW as [H1 H2].
  apply IH; [exact H2|].
  cbn in HE. subst e. unfold decode_member, selects_field in *.
  destruct (field_matches "Code" key); destruct (field_matches "Message" key);
    destruct v; cbn in *; try reflexivity; discriminate.
Qed.

(** A decoding error is never an [*APIError]. *)
Lemma decode_members_error_kind (members : list (string * JSON)) :
  forall (st : decode_state) (e : error),
    (forall e0, snd st = Some e0 -> errors_As_APIError e0 = None) ->
    snd (fold_left decode_member members st) = Some e ->
    errors_As_APIError e = None.
Proof.
  induction members as [|[key v] rest IH]; intros [a e0] e H0 HE.
  - apply H0. exact HE.
  - cbn [fold_left] in HE. apply IH in HE; [exact HE|].
    intros e1. unfold decode_member.
    destruct (field_matches "Code" key); [|destruct (field_matches "Message" key)];
      destruct v; cbn; unfold saveError; cbn;
      try (apply H0);
      destruct e0; cbn; intros E; try (apply (H0 e1 E));
      injection E as <-; reflexivity.
Qed.

Lemma decode_APIError_error_kind (v : JSON) (a : APIError) (e : error) :
  snd (decode_APIError v a) = Some e -> errors_As_APIError e = None.
Proof.
  destruct v; cbn; intros H; try discriminate; try (injection H as <-; reflexivity).
  apply (decode_members_error_kind members (a, None) e); [|exact H].
  cbn. discriminate.
Qed.


(** *** Closing the body *)

(** Whatever it returns, [UnmarshalResponse] reads the body of its
    response and then closes it. *)
Lemma UnmarshalResponse_closes (resp : Response) (resType : option TargetT) (s : St) :
  trace (world (snd (UnmarshalResponse env resp resType s))) =
  (trace (world s) ++ [EvReadAll (BodyId resp); EvClose (BodyId resp)])%list.
Proof.
  rewrite UnmarshalResponse_unfold. unfold closed, add_event. cbn.
  rewrite <- app_assoc. reflexivity.
Qed.

(** *** The limiter's answer *)

(** [Do] drops the error of [Ratelimiter.Wait]: after a refused wait it
    has taken no token and still hands the request to the transport,
    whose answer it returns. *)
Lemma Do_after_refused_wait (req : Request) (resp : Response) (s : St) (e : error) :
  LimiterWait env (waits (world s)) (Ctx req) = Some e ->
  RoundTrip env (sends (world s)) req = inl resp ->
  StatusCode resp <> 429 ->
  Do env req s = (Ret (inl resp), finished resp (started env req s)) /\
  tokens (world (finished resp (started env req s))) = tokens (world s) /\
  sends (world (finished resp (started env req s))) = S (sends (world s)).
Proof.
  intros HW HR HS. rewrite Do_unfold, HR, retry_loop_S.
  apply Z.eqb_neq in HS. rewrite HS, andb_false_r.
  split; [reflexivity|].
  unfold finished, add_event, started. cbn [self world tokens sends].
  rewrite HW. destruct (Client_Logger (self s)); cbn; lia.
Qed.

(** After a refused wait the transport's error, if any, is what [Do]
    returns. *)
Lemma Do_after_refused_wait_error (req : Request) (s : St) (e err : error) :
  LimiterWait env (waits (world s)) (Ctx req) = Some e ->
  RoundTrip env (sends (world s)) req = inr err ->
  Do env req s = (Ret (inr err), started env req s) /\
  tokens (world (started env req s)) = tokens (world s) /\
  sends (world (started env req s)) = S (sends (world s)).
Proof.
  intros HW HR. rewrite Do_unfold, HR. split; [reflexivity|].
  unfold started. cbn [self world tokens sends]. rewrite HW. lia.
Qed.

(** *** [NewClient] and the outcome of the validation *)

Lemma NewClient_by_validation
    (useOTE : bool) (apiKey apiSecret : string) (w : World) (err : error) (s : St) :
  validate env (mkSt (fresh_client useOTE apiKey apiSecret) w) = (Ret (Some err), s) ->
  (forall a, errors_As_APIError err = Some a -> Code a = ErrCodeQuotaExceeded ->
     NewClient env useOTE apiKey apiSecret w = (Ret (inl (self s)), world s)) /\
  (forall a, errors_As_APIError err = Some a -> Code a <> ErrCodeQuotaExceeded ->
     NewClient env useOTE apiKey apiSecret w = (Ret (inr err), world s)) /\
  (errors_As_APIError err = None ->
     NewClient env useOTE apiKey apiSecret w = (Ret (inl (self s)), world s)).
Proof.
  intros HV. unfold NewClient. fold (fresh_client useOTE apiKey apiSecret).
  cbv zeta. rewrite HV.
  repeat split.
  - intros a HA HC. rewrite HA, HC. reflexivity.
  - intros a HA HC. rewrite HA. apply String.eqb_neq in HC. rewrite HC. reflexivity.
  - intros HA. rewrite HA. reflexivity.
Qed.

End LoopFacts.

(** ** Runs in concrete worlds *)

Module Runs.
Import Scenario.

(** C1: validation of a fresh client against an unreachable API fails
    with a transport error, and [NewClient] nevertheless returns the
    client with a nil error: [errors.As] finds no [*APIError] in the
    chain, so the guard [ok && apiErr.Code != ErrCodeQuotaExceeded] is
    false and the error is dropped. *)
Theorem NewClient_swallows_transport_error :
  let env := env_of unreachable granted zeros in
  fst (validate env (mkSt (fresh_client false "key" "secret") World0)) =
    Ret (Some (ErrTransport "dial tcp: connection refused")) /\
  fst (NewClient env false "key" "secret" World0) =
    Ret (inl (with_request_timeout (fresh_client false "key" "secret"))).
Proof. split; reflexivity. Qed.

(** Validation failures that are API Errors, in concrete worlds: a
    [QUOTA_EXCEEDED] failure is ignored, any other code is returned. *)
Example NewClient_quota_exceeded_run :
  fst (NewClient (env_of (always throttled_bare) granted zeros)
         false "key" "secret" World0) =
  Ret (inl (with_request_timeout (fresh_client false "key" "secret"))).
Proof. reflexivity. Qed.

Example NewClient_bad_credentials_run :
  fst (NewClient
         (env_of (always (fun k => failed k 401 "UNABLE_TO_AUTHENTICATE" "bad key"))
            granted zeros)
         false "key" "secret" World0) =
  Ret (inr (ErrAPI (mkAPIError "UNABLE_TO_AUTHENTICATE" "bad key"))).
Proof. reflexivity. Qed.

(** C2: when every send is answered 429 with [Retry-After: 0] -- a
    header that parses as an integer -- [Do] panics in the jitter draw
    after the first send: no response is returned for decoding. *)
Theorem Do_panics_when_throttled_with_RetryAfter_0 :
  let env := env_of (always_throttled "0") granted zeros in
  let r := Do env (request0 Background) (s0 None) in
  ParseInt "0" = Some 0 /\
  (forall k, RoundTrip env k (request0 Background) = inl (throttled k "0")) /\
  fst r = Panic "invalid argument to Int63n" /\
  sends (world (snd r)) = 1%nat.
Proof. repeat split. Qed.

(** C3 (counterexample): for [Retry-After: 9223372037] and the draw
    [j = 0], the sleep that [Do] performs is negative, not
    [9223372037 + floor(0/2)] seconds: the product with [time.Second]
    wraps around in [int64]. *)
Lemma sleep_wraps_for_RetryAfter_9223372037 :
  let env := env_of (always_throttled "9223372037") granted zeros in
  let r := Do env (request0 Background) (s0 None) in
  ParseInt "9223372037" = Some 9223372037 /\
  Int63n (Int63 env 0) 9223372037 = Some 0 /\
  nth_error (trace (world (snd r))) 2 = Some (EvSleep (sleepTime 9223372037 0)) /\
  sleepTime 9223372037 0 = -9223372036709551616 /\
  sleepTime 9223372037 0 <> (9223372037 + 0 / 2) * Second.
Proof. repeat split. vm_compute. discriminate. Qed.

(** C3 (witness): [Retry-After: 2]. *)
Lemma retry_sleep_witness :
  let env := env_of (always_throttled "2") granted zeros in
  (1 < 3 /\ StatusCode (throttled 0 "2") = 429 /\
   ParseInt (Header_Get (RespHeader (throttled 0 "2")) "Retry-After") = Some 2 /\
   0 < 2) /\
  2 * Second <= sleepTime 2 (Int63 env (draws (world (s0 None))) mod 2) < 3 * Second.
Proof.
  intros env.
  assert (H : 1 < 3 /\ StatusCode (throttled 0 "2") = 429 /\
     ParseInt (Header_Get (RespHeader (throttled 0 "2")) "Retry-After") = Some 2 /\
     0 < 2) by (repeat split).
  split; [exact H|].
  destruct H as (H1 & H2 & H3 & H4).
  apply (retry_sleep_is_base_plus_half_jitter env 1 1 (request0 Background)
           (throttled 0 "2") (s0 None) 2 H1 H2 H3 H4).
  reflexivity.
Defined.



(** C6: the limiter refuses the wait (the context is canceled, or its
    deadline is nearer than the next token), and [Do] drops that error:
    it sends the request and returns the transport's 200 response with
    a nil error. *)
Theorem Do_sends_after_refused_wait :
  let env := env_of always_ok refused zeros in
  let req := request0 (Derived 1) in
  Do env req (s0 None) =
    (Ret (inl (ok_empty 0)),
     mkSt (client0 None)
       (mkWorld 1 1 0 0
          [EvWait (Derived 1)
             (Some (ErrLimiter "rate: Wait(n=1) would exceed context deadline"));
           EvSend req])).
Proof. reflexivity. Qed.

(** C7 (counterexample): with a logger and three 429 answers
    ([Retry-After: 1]) the request is sent three times and each hook is
    called once, not three times. *)
Lemma two_retries_one_log_each :
  let env := env_of (always_throttled "1") granted zeros in
  let t := trace (world (snd (Do env (request0 Background) (s0 (Some 7%nat))))) in
  count is_send t = 3%nat /\
  count is_log_request t = 1%nat /\
  count is_log_response t = 1%nat /\
  ~ (count is_log_request t = 3%nat /\ count is_log_response t = 3%nat).
Proof.
  repeat split. intros [H _]. vm_compute in H. discriminate H.
Qed.

(** C7 (witness): the same run. *)
Lemma Do_logs_once_witness :
  let env := env_of (always_throttled "1") granted zeros in
  let r := Do env (request0 Background) (s0 (Some 7%nat)) in
  Client_Logger (self (s0 (Some 7%nat))) = Some 7%nat /\
  count is_log_request (trace (world (snd r))) = 1%nat /\
  fst (Do env (request0 Background) (s0 None)) = fst r.
Proof.
  intros env r.
  assert (H : Client_Logger (self (s0 (Some 7%nat))) = Some 7%nat) by reflexivity.
  split; [exact H|].
  destruct (Do_logs_once env (request0 Background) (s0 (Some 7%nat)) 7%nat H)
    as (_ & HC & _ & HE & _).
  split; [exact HC | exact HE].
Defined.

(** C8 (counterexample): the first request built by a fresh client
    changes the [Timeout] of the underlying [http.Client] from 0 to
    180 s. *)
Lemma NewRequest_sets_transport_timeout :
  let env := env_of always_ok granted zeros in
  let s := mkSt (fresh_client false "key" "secret") World0 in
  let s' := snd (NewRequest env "GET" "/v1/domains" None s) in
  hcTimeout (Client_Client (self s)) = 0 /\
  hcTimeout (Client_Client (self s')) = 180 * Second /\
  Client_Client (self s') <> Client_Client (self s).
Proof. repeat split. discriminate. Qed.

(** C9: one 429 answer with [Retry-After: 1], then 200.  The call
    succeeds after two sends; the body of the 200 response is read and
    closed, the body of the 429 response that the retry loop replaced is
    never closed. *)
Theorem CallAPI_leaves_retried_body_open :
  let env := env_of throttled_once granted zeros in
  let r := CallAPI env "GET" "/v1/domains" None None (s0 None) in
  let t := trace (world (snd r)) in
  RoundTrip env 0 (request0 Background) = inl (throttled 0 "1") /\
  fst r = Ret None /\
  count is_send t = 2%nat /\
  count (is_close_of 1) t = 1%nat /\
  count (is_close_of 0) t = 0%nat.
Proof. repeat split. Qed.

End Runs.

(** * Further properties of the pipeline *)

Section RunFacts.
Context {ReqBodyT TargetT : Type}.
Variable env : Env ReqBodyT TargetT.

Lemma count_app (p : Event -> bool) (a b : list Event) :
  count p (a ++ b) = (count p a + count p b)%nat.
Proof. unfold count. rewrite filter_app, length_app. reflexivity. Qed.

(** The loop appends retry blocks, and its counters move together: one
    wait, one draw and one sleep per send. *)
Lemma retry_loop_shape (b : nat) :
  forall (i : Z) (req : Request) (resp : Response) (s : St),
    let s' := snd (retry_loop env b i req resp s) in
    exists t,
      trace (world s') = (trace (world s) ++ t)%list /\
      retry_blocks req t /\
      sends (world s') = (sends (world s) + count is_send t)%nat /\
      waits (world s') = (waits (world s) + count is_send t)%nat /\
      draws (world s') = (draws (world s) + count is_send t)%nat /\
      count is_sleep t = count is_send t /\
      count is_wait t = count is_send t /\
      (tokens (world s) <= tokens (world s') <= tokens (world s) + count is_send t)%nat.
Proof.
  induction b as [|b IH]; intros i req resp s; cbv zeta.
  - exists []. cbn. rewrite app_nil_r, !Nat.add_0_r.
    repeat split; try constructor; lia.
  - rewrite retry_loop_S.
    destruct ((i <? 3) && (StatusCode resp =? 429)).
    2:{ exists []. cbn. rewrite app_nil_r, !Nat.add_0_r.
        repeat split; try constructor; lia. }
    destruct (ParseInt _) as [n|].
    2:{ eexists. cbn. split; [reflexivity|]. rewrite !Nat.add_0_r.
        repeat split; try constructor; lia. }
    destruct (Int63n _ n) as [j|].
    2:{ exists []. cbn. rewrite app_nil_r, !Nat.add_0_r.
        repeat split; try constructor; lia. }
    assert (HT : (tokens (world s) <= tokens (world (retried env req n j s))
                  <= tokens (world s) + 1)%nat).
    { unfold retried. cbn. destruct (LimiterWait env _ _); lia. }
    assert (HR : sends (world (retried env req n j s)) = S (sends (world s)) /\
                 waits (world (retried env req n j s)) = S (waits (world s)) /\
                 draws (world (retried env req n j s)) = S (draws (world s)))
      by (repeat split; reflexivity).
    destruct HR as (HR1 & HR2 & HR3).
    destruct (RoundTrip env (sends (world s)) req) as [resp'|err].
    + destruct (IH (wrap64 (i + 1)) req resp' (retried env req n j s))
        as (t & T & B & HS1 & HW1 & HD1 & HC1 & HC2 & HK1).
      eexists. rewrite T, retried_trace, <- app_assoc. cbn [app].
      split; [reflexivity|].
      split; [constructor; exact B|].
      rewrite HS1, HW1, HD1, HR1, HR2, HR3.
      unfold count in *. cbn [filter is_send is_sleep is_wait List.length].
      repeat split; lia.
    + cbn [snd]. eexists. rewrite retried_trace.
      split; [reflexivity|].
      split; [repeat constructor|].
      rewrite HR1, HR2, HR3.
      unfold count. cbn [filter is_send is_sleep is_wait List.length].
      repeat split; lia.
Qed.

Lemma started_trace (req : Request) (s : St) :
  trace (world (started env req s)) =
  (trace (world s) ++ request_hook (self s) req ++
     [EvWait (Ctx req) (LimiterWait env (waits (world s)) (Ctx req)); EvSend req])%list.
Proof.
  unfold started, request_hook. cbn [world trace].
  destruct (Client_Logger (self s)); rewrite <- !app_assoc; reflexivity.
Qed.

Lemma finished_trace (resp : Response) (s : St) :
  trace (world (finished resp s)) =
  (trace (world s) ++ response_hook (self s) (Ret (inl resp)))%list.
Proof.
  unfold finished, response_hook, add_event.
  destruct (Client_Logger (self s)); cbn; rewrite ?app_nil_r; reflexivity.
Qed.

Lemma retry_blocks_events (req : Request) (t : list Event) :
  retry_blocks req t ->
  Forall (uses_request req) t /\
  count is_read t = 0%nat /\ count is_close t = 0%nat /\ count is_log t = 0%nat.
Proof.
  induction 1 as [|msg|d r t _ IH].
  - repeat split; constructor.
  - repeat split. repeat constructor.
  - destruct IH as (F & HR & HC & HL). unfold count in *. cbn.
    repeat split; auto. repeat (constructor; [reflexivity|]). exact F.
Qed.

(** The trace of [Do], with the number of retries. *)
Lemma Do_trace_full (req : Request) (s : St) :
  exists r0 t,
    retry_blocks req t /\
    (count is_send t <= 2)%nat /\
    trace (world (snd (Do env req s))) =
    (trace (world s) ++ request_hook (self s) req ++
       EvWait (Ctx req) r0 :: EvSend req :: t ++
       response_hook (self s) (fst (Do env req s)))%list.
Proof.
  exists (LimiterWait env (waits (world s)) (Ctx req)).
  rewrite Do_unfold.
  destruct (RoundTrip env (sends (world s)) req) as [resp|err].
  - destruct (retry_loop_shape 2 1 req resp (started env req s))
      as (t & T & B & HS1 & _).
    destruct (retry_loop_frame env 2 1 req resp (started env req s)) as (E & HB & _).
    exists t. split; [exact B|]. split; [lia|].
    destruct (retry_loop env 2 1 req resp (started env req s)) as [[[r|e]|m] s'];
      cbn [fst snd] in *.
    + rewrite finished_trace, T, started_trace, E, <- !app_assoc.
      reflexivity.
    + rewrite T, started_trace, <- !app_assoc. unfold response_hook.
      destruct (Client_Logger (self s)); cbn; rewrite ?app_nil_r; reflexivity.
    + rewrite T, started_trace, <- !app_assoc. unfold response_hook.
      destruct (Client_Logger (self s)); cbn; rewrite ?app_nil_r; reflexivity.
  - exists []. split; [constructor|]. split; [cbn; lia|]. cbn [fst snd].
    rewrite started_trace. unfold response_hook.
    destruct (Client_Logger (self s)); reflexivity.
Qed.

(** X1: the trace of [Do].  After the optional request hook, [Do] waits on
    the request's context and sends the request; every retry is a sleep,
    a wait on the same context and a send of the same request, in that
    order, and there are at most two; the optional response hook comes
    last. *)
Theorem Do_trace_shape (req : Request) (s : St) :
  exists r0 t,
    retry_blocks req t /\
    (count is_send t <= 2)%nat /\
    trace (world (snd (Do env req s))) =
    (trace (world s) ++ request_hook (self s) req ++
       EvWait (Ctx req) r0 :: EvSend req :: t ++
       response_hook (self s) (fst (Do env req s)))%list.
Proof. exact (Do_trace_full req s). Qed.

(** X2: the counters of [Do].  A run of [Do] with [k] retries ([k <= 2])
    makes [k + 1] sends and [k + 1] limiter waits, [k] random draws and
    [k] sleeps, and takes at most [k + 1] tokens -- whether it returns a
    response, returns an error or panics. *)
Theorem Do_counters (req : Request) (s : St) :
  let s' := snd (Do env req s) in
  exists k : nat,
    (k <= 2)%nat /\
    sends (world s') = (sends (world s) + S k)%nat /\
    waits (world s') = (waits (world s) + S k)%nat /\
    draws (world s') = (draws (world s) + k)%nat /\
    count is_sleep (trace (world s')) = (count is_sleep (trace (world s)) + k)%nat /\
    (tokens (world s) <= tokens (world s') <= tokens (world s) + S k)%nat.
Proof.
  cbv zeta.
  assert (HS : sends (world (started env req s)) = S (sends (world s)) /\
               waits (world (started env req s)) = S (waits (world s)) /\
               draws (world (started env req s)) = draws (world s) /\
               count is_sleep (trace (world (started env req s))) =
                 count is_sleep (trace (world s)) /\
               (tokens (world s) <= tokens (world (started env req s))
                  <= tokens (world s) + 1)%nat).
  { split; [reflexivity|]. split; [reflexivity|]. split; [reflexivity|].
    split.
    - rewrite started_trace, !count_app. unfold request_hook.
      destruct (Client_Logger (self s)); cbn; lia.
    - unfold started. cbn. destruct (LimiterWait env _ _); lia. }
  destruct HS as (H1 & H2 & H3 & H4 & H5).
  rewrite Do_unfold.
  destruct (RoundTrip env (sends (world s)) req) as [resp|err].
  - destruct (retry_loop_shape 2 1 req resp (started env req s))
      as (t & T & _ & HS1 & HW1 & HD1 & HC1 & _ & HK1).
    destruct (retry_loop_frame env 2 1 req resp (started env req s)) as (_ & HB & _).
    exists (count is_send t).
    assert (HF : forall r s0,
               sends (world (finished r s0)) = sends (world s0) /\
               waits (world (finished r s0)) = waits (world s0) /\
               draws (world (finished r s0)) = draws (world s0) /\
               tokens (world (finished r s0)) = tokens (world s0) /\
               count is_sleep (trace (world (finished r s0))) =
                 count is_sleep (trace (world s0))).
    { intros r s0. rewrite finished_trace, count_app.
      unfold finished, add_event, response_hook.
      destruct (Client_Logger (self s0)); cbn; repeat split; lia. }
    destruct (retry_loop env 2 1 req resp (started env req s)) as [[[r|e]|m] s'];
      cbn [snd] in *;
      try (destruct (HF r s') as (F1 & F2 & F3 & F4 & F5); rewrite F1, F2, F3, F4, F5);
      rewrite T, count_app, HC1; repeat split; lia.
  - exists 0%nat. cbn [snd]. repeat split; lia.
Qed.

Lemma retry_loop_returns (b : nat) :
  forall (i : Z) (req : Request) (resp r : Response) (s s' : St),
    1 <= i ->
    retry_loop env b i req resp s = (Ret (inl r), s') ->
    (r = resp /\ sends (world s') = sends (world s) \/
     (sends (world s) < sends (world s'))%nat /\
     RoundTrip env (pred (sends (world s'))) req = inl r) /\
    (StatusCode r <> 429 \/
     ParseInt (Header_Get (RespHeader r) "Retry-After") = None \/
     sends (world s') = (sends (world s) + b)%nat \/
     3 <= i + Z.of_nat (sends (world s') - sends (world s))).
Proof.
  induction b as [|b IH]; intros i req resp r s s' Hi H.
  - cbn in H. injection H as <- <-. split; [left; auto|].
    right; right; left. lia.
  - rewrite retry_loop_S in H.
    destruct (i <? 3) eqn:Ei.
    2:{ cbn in H. injection H as <- <-. apply Z.ltb_ge in Ei.
        split; [left; auto|]. right; right; right. lia. }
    destruct (StatusCode resp =? 429) eqn:Es.
    2:{ cbn in H. injection H as <- <-. apply Z.eqb_neq in Es.
        split; [left; auto|]. left. exact Es. }
    cbn [andb] in H. apply Z.ltb_lt in Ei.
    destruct (ParseInt (Header_Get (RespHeader resp) "Retry-After")) as [n|] eqn:Ep.
    2:{ injection H as <- <-. split; [left; auto|]. right; left. exact Ep. }
    destruct (Int63n _ n) as [j|]; [|discriminate H].
    destruct (RoundTrip env (sends (world s)) req) as [resp'|err] eqn:Er;
      [|discriminate H].
    rewrite (wrap64_id (i + 1)) in H by (unfold int64_min, int64_max; lia).
    pose proof (retry_loop_frame env b (i + 1) req resp' (retried env req n j s)) as HF.
    rewrite H in HF. cbn [snd] in HF. destruct HF as (_ & HM & _).
    apply IH in H; [|lia].
    change (sends (world (retried env req n j s))) with (S (sends (world s))) in *.
    destruct H as [[[-> HE]|[HL HR]] HD].
    + split.
      * right. split; [lia|]. rewrite HE. cbn [pred]. exact Er.
      * destruct HD as [HD|[HD|[HD|HD]]]; auto; right; right; [left|right]; lia.
    + split.
      * right. split; [lia|exact HR].
      * destruct HD as [HD|[HD|[HD|HD]]]; auto; right; right; [left|right]; lia.
Qed.

(** X3: what [Do] returns.  A response returned by [Do] is the
    transport's answer to the last send made, and it is a 429 only when
    its [Retry-After] header is unusable or the three sends are spent. *)
Theorem Do_returns_last_answer (req : Request) (s s' : St) (r : Response) :
  Do env req s = (Ret (inl r), s') ->
  RoundTrip env (pred (sends (world s'))) req = inl r /\
  (StatusCode r <> 429 \/
   ParseInt (Header_Get (RespHeader r) "Retry-After") = None \/
   sends (world s') = (sends (world s) + 3)%nat).
Proof.
  rewrite Do_unfold.
  destruct (RoundTrip env (sends (world s)) req) as [resp|err] eqn:Er;
    [|discriminate].
  pose proof (retry_loop_frame env 2 1 req resp (started env req s)) as HF.
  destruct (retry_loop env 2 1 req resp (started env req s)) as [[[r1|e]|m] s1] eqn:EL;
    try discriminate.
  intros H. injection H as -> <-.
  cbn [snd] in HF. destruct HF as (_ & HM & _).
  apply retry_loop_returns in EL; [|lia].
  change (sends (world (started env req s))) with (S (sends (world s))) in *.
  assert (HS : sends (world (finished r s1)) = sends (world s1)).
  { unfold finished, add_event. destruct (Client_Logger (self s1)); reflexivity. }
  rewrite HS.
  destruct EL as [[[-> HE]|[HL HR]] HD].
  - split; [rewrite HE; exact Er|].
    destruct HD as [HD|[HD|[HD|HD]]]; auto; right; right; lia.
  - split; [exact HR|].
    destruct HD as [HD|[HD|[HD|HD]]]; auto; right; right; lia.
Qed.
End RunFacts.

Section RunFacts2.
Context {ReqBodyT TargetT : Type}.
Variable env : Env ReqBodyT TargetT.

(** X4: no retry without throttling.  When the first send fails in the
    transport, or is answered with a status other than 429, [Do] returns
    that error (unwrapped) or that response after exactly one limiter
    wait and one send, without drawing or sleeping. *)
Theorem Do_without_throttling (req : Request) (s : St) :
  match RoundTrip env (sends (world s)) req with
  | inl resp => StatusCode resp <> 429
  | inr _ => True
  end ->
  let s' := snd (Do env req s) in
  fst (Do env req s) = Ret (RoundTrip env (sends (world s)) req) /\
  sends (world s') = S (sends (world s)) /\
  waits (world s') = S (waits (world s)) /\
  draws (world s') = draws (world s) /\
  count is_sleep (trace (world s')) = count is_sleep (trace (world s)).
Proof.
  intros H. cbv zeta.
  assert (HT : count is_sleep (trace (world (started env req s))) =
               count is_sleep (trace (world s))).
  { rewrite started_trace, !count_app. unfold request_hook.
    destruct (Client_Logger (self s)); cbn; lia. }
  rewrite Do_unfold.
  destruct (RoundTrip env (sends (world s)) req) as [resp|err].
  - rewrite retry_loop_S. apply Z.eqb_neq in H. rewrite H, andb_false_r.
    cbn [fst snd]. rewrite finished_trace, count_app.
    unfold finished, add_event, response_hook.
    destruct (Client_Logger (self (started env req s)));
      cbn [world sends waits draws]; rewrite HT; cbn; repeat split; lia.
  - cbn [fst snd]. repeat split. exact HT.
Qed.

(** X5: recovery after one retry.  A first answer 429 with
    [Retry-After: n], [n > 0], followed by an answer that is not a 429:
    [Do] sleeps once, for [sleepTime n j] with [j] the draw, waits and
    sends a second time, and returns the second response. *)
Theorem Do_recovers_after_one_retry
    (req : Request) (s : St) (resp1 resp2 : Response) (n : Z) :
  RoundTrip env (sends (world s)) req = inl resp1 ->
  StatusCode resp1 = 429 ->
  ParseInt (Header_Get (RespHeader resp1) "Retry-After") = Some n ->
  0 < n ->
  RoundTrip env (S (sends (world s))) req = inl resp2 ->
  StatusCode resp2 <> 429 ->
  let j := Int63 env (draws (world s)) mod n in
  let s' := snd (Do env req s) in
  fst (Do env req s) = Ret (inl resp2) /\
  sends (world s') = S (S (sends (world s))) /\
  waits (world s') = S (S (waits (world s))) /\
  trace (world s') =
    (trace (world s) ++ request_hook (self s) req ++
       [EvWait (Ctx req) (LimiterWait env (waits (world s)) (Ctx req));
        EvSend req;
        EvSleep (sleepTime n j);
        EvWait (Ctx req) (LimiterWait env (S (waits (world s))) (Ctx req));
        EvSend req] ++
       response_hook (self s) (Ret (inl resp2)))%list.
Proof.
  intros HR1 HS1 HP1 HN HR2 HS2. cbv zeta.
  assert (E1 : (n <=? 0) = false) by (apply Z.leb_gt; exact HN).
  assert (ED : Do env req s =
            (Ret (inl resp2),
             finished resp2
               (retried env req n (Int63 env (draws (world s)) mod n)
                  (started env req s)))).
  { rewrite Do_unfold, HR1, retry_loop_S, HS1, HP1.
    change ((1 <? 3) && (429 =? 429)) with true. cbv iota.
    unfold Int63n at 1. rewrite E1.
    change (sends (world (started env req s))) with (S (sends (world s))).
    change (draws (world (started env req s))) with (draws (world s)).
    rewrite HR2, retry_loop_S.
    apply Z.eqb_neq in HS2. rewrite HS2, andb_false_r. reflexivity. }
  rewrite ED. cbn [fst snd].
  split; [reflexivity|].
  assert (HF : forall s0, sends (world (finished resp2 s0)) = sends (world s0) /\
                          waits (world (finished resp2 s0)) = waits (world s0)).
  { intros s0. unfold finished, add_event.
    destruct (Client_Logger (self s0)); split; reflexivity. }
  destruct (HF (retried env req n (Int63 env (draws (world s)) mod n)
                  (started env req s))) as [F1 F2].
  rewrite F1, F2.
  split; [reflexivity|]. split; [reflexivity|].
  rewrite finished_trace, retried_trace, started_trace, <- !app_assoc.
  reflexivity.
Qed.

(** X6: a transport failure during a retry.  When the first answer is a
    429 with a positive [Retry-After] and the second send fails, [Do]
    returns that error wrapped in
    "doing request after waiting for retry after" -- [errors.As] still
    finds in it what it finds in the transport's error -- after exactly
    two sends, and the response hook is not called. *)
Theorem Do_retry_transport_failure
    (req : Request) (s : St) (resp1 : Response) (n : Z) (err : error) :
  RoundTrip env (sends (world s)) req = inl resp1 ->
  StatusCode resp1 = 429 ->
  ParseInt (Header_Get (RespHeader resp1) "Retry-After") = Some n ->
  0 < n ->
  RoundTrip env (S (sends (world s))) req = inr err ->
  let s' := snd (Do env req s) in
  fst (Do env req s) =
    Ret (inr (ErrWrap "doing request after waiting for retry after" err)) /\
  errors_As_APIError (ErrWrap "doing request after waiting for retry after" err) =
    errors_As_APIError err /\
  sends (world s') = S (S (sends (world s))) /\
  count is_log_response (trace (world s')) = count is_log_response (trace (world s)).
Proof.
  intros HR1 HS1 HP1 HN HR2. cbv zeta.
  assert (E1 : (n <=? 0) = false) by (apply Z.leb_gt; exact HN).
  assert (ED : Do env req s =
            (Ret (inr (ErrWrap "doing request after waiting for retry after" err)),
             retried env req n (Int63 env (draws (world s)) mod n)
               (started env req s))).
  { rewrite Do_unfold, HR1, retry_loop_S, HS1, HP1.
    change ((1 <? 3) && (429 =? 429)) with true. cbv iota.
    unfold Int63n at 1. rewrite E1.
    change (sends (world (started env req s))) with (S (sends (world s))).
    change (draws (world (started env req s))) with (draws (world s)).
    rewrite HR2. reflexivity. }
  rewrite ED. cbn [fst snd].
  split; [reflexivity|]. split; [reflexivity|]. split; [reflexivity|].
  rewrite retried_trace, started_trace, !count_app. unfold request_hook.
  destruct (Client_Logger (self s)); cbn; lia.
Qed.

(** X7: the retry delay is never below the server's hint.  For
    [0 < n <= 6148914691] and a draw [j] of [[0, n)], the sleep lasts at
    least [n] seconds and less than one and a half times [n] seconds
    (at most [n + floor((n-1)/2)] seconds). *)
Theorem sleepTime_bounds (n j : Z) :
  0 < n <= 6148914691 -> 0 <= j < n ->
  n * Second <= sleepTime n j <= (n + (n - 1) / 2) * Second /\
  2 * sleepTime n j < 3 * n * Second.
Proof.
  intros Hn Hj.
  assert (H0 : 0 <= j / 2) by (apply Z.div_pos; lia).
  assert (H1 : j / 2 <= (n - 1) / 2) by (apply Z.div_le_mono; lia).
  assert (H2 : 2 * ((n - 1) / 2) <= n - 1) by (apply Z.mul_div_le; lia).
  rewrite sleepTime_exact by lia.
  unfold Second. lia.
Qed.
End RunFacts2.

(** ** [strconv.ParseInt] and [%d] *)

Lemma digit_of_range (c : ascii) (d : Z) : digit_of c = Some d -> 0 <= d <= 9.
Proof.
  unfold digit_of. destruct (_ && _) eqn:E; [|discriminate].
  intros H. injection H as <-. apply andb_true_iff in E.
  destruct E as [E1 E2]. apply Z.leb_le in E1, E2. lia.
Qed.

Lemma parse_digits_sound (s : string) :
  forall acc v, parse_digits s acc = Some v -> 0 <= acc ->
                acc <= v /\ all_digits s = true.
Proof.
  induction s as [|c rest IH]; intros acc v H Hacc;
    cbn [parse_digits all_digits] in *.
  - injection H as <-. split; [lia|reflexivity].
  - destruct (digit_of c) as [d|] eqn:Ed; [|discriminate].
    apply digit_of_range in Ed. apply IH in H; [|lia].
    destruct H as [H1 H2]. split; [lia|exact H2].
Qed.

(** X8: what [ParseInt] accepts.  A [Retry-After] value is parsed only
    when it is an optional sign followed by at least one character, all
    of them ASCII digits, and the result then fits [int64]: an empty
    value, white space, a fraction or an HTTP date are errors. *)
Theorem ParseInt_sound (s : string) (n : Z) :
  ParseInt s = Some n ->
  int64_min <= n <= int64_max /\
  unsigned_part s <> EmptyString /\
  all_digits (unsigned_part s) = true.
Proof.
  unfold ParseInt, unsigned_part. destruct s as [|c rest]; [discriminate|].
  rewrite (orb_comm (Ascii.eqb c "+")).
  replace (Ascii.eqb c "-" || Ascii.eqb c "+") with (Ascii.eqb c "+" || Ascii.eqb c "-")
    by apply orb_comm.
  cbv zeta.
  set (body := if Ascii.eqb c "+" || Ascii.eqb c "-" then rest else String c rest).
  unfold parse_unsigned.
  destruct body as [|c0 body0] eqn:EB; [discriminate|].
  destruct (parse_digits (String c0 body0) 0) as [un|] eqn:EP; [|discriminate].
  apply parse_digits_sound in EP; [|lia]. destruct EP as [H0 HD].
  intros H. split; [|split; [discriminate|exact HD]].
  unfold int64_min, int64_max.
  destruct (Ascii.eqb c "-"); cbn [negb andb] in H.
  - destruct (2 ^ 63 <? un) eqn:E; [discriminate|].
    injection H as <-. apply Z.ltb_ge in E. lia.
  - destruct (2 ^ 63 <=? un) eqn:E; [discriminate|].
    injection H as <-. apply Z.leb_gt in E. lia.
Qed.

Lemma parse_digits_string_of_uint (d : Decimal.uint) :
  forall acc, parse_digits (NilEmpty.string_of_uint d) acc = Some (digits_value d acc).
Proof.
  induction d; intros acc; cbn [NilEmpty.string_of_uint parse_digits digits_value];
    try reflexivity;
    match goal with
    | |- context [digit_of ?c] =>
        change (digit_of c) with (Some (Z.of_nat (nat_of_ascii c) - 48))
    end; rewrite <- IHd; f_equal; vm_compute (Z.of_nat _ - 48); lia.
Qed.

Lemma NilZero_nonnil (d : Decimal.uint) :
  d <> Decimal.Nil -> NilZero.string_of_uint d = NilEmpty.string_of_uint d.
Proof. destruct d; [contradiction|..]; reflexivity. Qed.

Lemma digits_value_pos (d : Decimal.uint) :
  forall p, digits_value d (Zpos p) = Zpos (Pos.of_uint_acc d p).
Proof.
  induction d; intros p; cbn [digits_value Pos.of_uint_acc]; try reflexivity;
    rewrite <- IHd; f_equal; lia.
Qed.

Lemma digits_value_0 (d : Decimal.uint) :
  digits_value d 0 = Z.of_N (Pos.of_uint d).
Proof.
  induction d; cbn [digits_value Pos.of_uint]; try reflexivity;
    try exact IHd;
    change (10 * 0 + 1) with 1; change (10 * 0 + 2) with 2;
    change (10 * 0 + 3) with 3; change (10 * 0 + 4) with 4;
    change (10 * 0 + 5) with 5; change (10 * 0 + 6) with 6;
    change (10 * 0 + 7) with 7; change (10 * 0 + 8) with 8;
    change (10 * 0 + 9) with 9;
    rewrite digits_value_pos; reflexivity.
Qed.

Lemma string_of_uint_head (d : Decimal.uint) :
  d <> Decimal.Nil ->
  exists c rest,
    NilZero.string_of_uint d = String c rest /\
    Ascii.eqb c "+" = false /\ Ascii.eqb c "-" = false.
Proof.
  destruct d; intros H; [contradiction|..];
    cbn [NilZero.string_of_uint]; eexists; eexists; repeat split.
Qed.

Lemma parse_unsigned_positive (p : positive) :
  parse_unsigned (NilZero.string_of_uint (Pos.to_uint p)) = Some (Zpos p).
Proof.
  destruct (string_of_uint_head (Pos.to_uint p) (DecimalPos.Unsigned.to_uint_nonnil p))
    as (c & rest & E & _).
  unfold parse_unsigned. rewrite E, <- E.
  rewrite (NilZero_nonnil _ (DecimalPos.Unsigned.to_uint_nonnil p)).
  rewrite parse_digits_string_of_uint, digits_value_0, DecimalPos.Unsigned.of_to.
  reflexivity.
Qed.

(** X9: the round trip of an integer through its text.  Every [int64]
    printed with [%d] is parsed back by [ParseInt] to itself. *)
Theorem ParseInt_itoa (n : Z) :
  int64_min <= n <= int64_max -> ParseInt (itoa n) = Some n.
Proof.
  unfold int64_min, int64_max. intros Hn.
  destruct n as [|p|p].
  - reflexivity.
  - unfold itoa. cbn [Z.to_int NilZero.string_of_int].
    pose proof (parse_unsigned_positive p) as HP.
    destruct (string_of_uint_head (Pos.to_uint p) (DecimalPos.Unsigned.to_uint_nonnil p))
      as (c & rest & E & E1 & E2).
    rewrite E in *. unfold ParseInt. rewrite E1, E2. cbn [orb negb andb].
    rewrite HP.
    assert (EL : (2 ^ 63 <=? Z.pos p) = false) by (apply Z.leb_gt; lia).
    rewrite EL. reflexivity.
  - unfold itoa. cbn [Z.to_int NilZero.string_of_int].
    unfold ParseInt. cbn [Ascii.eqb Bool.eqb orb negb andb].
    rewrite parse_unsigned_positive.
    assert (EL : (2 ^ 63 <? Z.pos p) = false) by (apply Z.ltb_ge; lia).
    rewrite EL. reflexivity.
Qed.

Section CallFacts.
Context {ReqBodyT TargetT : Type}.
Variable env : Env ReqBodyT TargetT.

(** X10: a success status.  For a status in [200, 300) and a body that was
    read, [UnmarshalResponse] returns nil without decoding when the body
    is empty or no target was given; otherwise it returns what
    [json.Unmarshal] returns for the body and the target.  The error
    envelope is not consulted, and the body is read, then closed. *)
Theorem UnmarshalResponse_2xx
    (resp : Response) (resType : option TargetT) (s : St) (body : string) :
  200 <= StatusCode resp < 300 ->
  BodyData resp = inl body ->
  let r := UnmarshalResponse env resp resType s in
  (body = EmptyString \/ resType = None -> fst r = Ret None) /\
  (forall t, resType = Some t -> body <> EmptyString ->
             fst r = Ret (json_Unmarshal env body t)) /\
  trace (world (snd r)) =
    (trace (world s) ++ [EvReadAll (BodyId resp); EvClose (BodyId resp)])%list.
Proof.
  intros HS HB. cbv zeta.
  rewrite UnmarshalResponse_closes, UnmarshalResponse_unfold, HB. cbn [fst].
  assert (E : (StatusCode resp <? 200) || (300 <=? StatusCode resp) = false).
  { apply orb_false_iff. split; [apply Z.ltb_ge | apply Z.leb_gt]; lia. }
  rewrite E. repeat split.
  - intros [-> | ->]; [reflexivity|].
    destruct (String.length body =? 0)%nat; reflexivity.
  - intros t -> HN. destruct body as [|c rest]; [contradiction|reflexivity].
Qed.

(** X11: a body that cannot be read.  When [io.ReadAll] fails,
    [UnmarshalResponse] returns the read error whatever the status code
    and the target are, and the deferred [Close] still runs. *)
Theorem UnmarshalResponse_read_failure
    (resp : Response) (resType : option TargetT) (s : St) (err : error) :
  BodyData resp = inr err ->
  let r := UnmarshalResponse env resp resType s in
  fst r = Ret (Some err) /\
  trace (world (snd r)) =
    (trace (world s) ++ [EvReadAll (BodyId resp); EvClose (BodyId resp)])%list.
Proof.
  intros HB. cbv zeta.
  rewrite UnmarshalResponse_closes, UnmarshalResponse_unfold, HB.
  split; reflexivity.
Qed.

(** The fields of the request built by [NewRequest]. *)
Lemma NewRequest_built
    (method path : string) (reqBody : option ReqBodyT) (s : St) (req : Request) :
  fst (NewRequest env method path reqBody s) = Ret (inl req) ->
  Method req = method /\
  URL req = (APIEndPoint (self s) ++ path)%string /\
  Ctx req = Background /\
  Header_Get (ReqHeader req) "Authorization" =
    ("sso-key " ++ APIKey (self s) ++ ":" ++ APISecret (self s))%string /\
  Header_Get (ReqHeader req) "Accept" = "application/json"%string /\
  Header_Get (ReqHeader req) "User-Agent" = UserAgent env /\
  match reqBody with
  | Some v =>
      json_Marshal env v = inl (ReqBody req) /\
      Header_Get (ReqHeader req) "Content-Type" =
        "application/json;charset=utf-8"%string
  | None =>
      ReqBody req = EmptyString /\
      Header_lookup (ReqHeader req) "Content-Type" = []
  end.
Proof.
  unfold NewRequest, bind, get_self, put_self, ret.
  destruct reqBody as [v|].
  - destruct (json_Marshal env v) as [body|err]; [|discriminate].
    destruct (http_NewRequest env method _) as [err|]; [discriminate|].
    cbn [fst]. intros H. injection H as <-. repeat split.
  - destruct (http_NewRequest env method _) as [err|]; [discriminate|].
    cbn [fst]. intros H. injection H as <-. repeat split.
Qed.


(** X13: the timeout write is idempotent.  Once a request has been built,
    the [Timeout] of the underlying [http.Client] equals the client's,
    and building further requests leaves the client unchanged. *)
Theorem NewRequest_timeout_stable
    (method path method' path' : string) (reqBody reqBody' : option ReqBodyT)
    (s : St) (req : Request) :
  fst (NewRequest env method path reqBody s) = Ret (inl req) ->
  let s1 := snd (NewRequest env method path reqBody s) in
  hcTimeout (Client_Client (self s1)) = Timeout (self s1) /\
  snd (NewRequest env method' path' reqBody' s1) = s1.
Proof.
  intros H. cbv zeta.
  destruct (NewRequest_cases env method path reqBody s) as [[err E]|[r E]];
    rewrite E in *; [discriminate H|].
  cbn [snd]. split; [reflexivity|].
  destruct (NewRequest_cases env method' path' reqBody'
              (mkSt (with_request_timeout (self s)) (world s))) as [[err E']|[r' E']];
    rewrite E'; reflexivity.
Qed.

(** X14: a call whose request cannot be built.  When [NewRequest] fails
    (the body cannot be marshalled, or [http.NewRequest] rejects the
    method or the URL), the call returns that error and does nothing
    else: no wait, no send, no write to the client. *)
Theorem CallAPIWithContext_request_error
    (ctx : Context) (method path : string)
    (reqBody : option ReqBodyT) (resType : option TargetT) (s : St) (err : error) :
  fst (NewRequest env method path reqBody s) = Ret (inr err) ->
  CallAPIWithContext env ctx method path reqBody resType s = (Ret (Some err), s).
Proof.
  intros H. unfold CallAPIWithContext, bind.
  destruct (NewRequest_cases env method path reqBody s) as [[e E]|[r E]];
    rewrite E in *; cbn [fst] in H; [|discriminate H].
  injection H as ->. reflexivity.
Qed.
End CallFacts.

Section CallFacts2.
Context {ReqBodyT TargetT : Type}.
Variable env : Env ReqBodyT TargetT.

Lemma hooks_quiet (c : Client) (req : Request) (o : outcome (Response + error)) :
  Forall (uses_request req) (request_hook c req) /\
  Forall (uses_request req) (response_hook c o) /\
  count is_read (request_hook c req) = 0%nat /\
  count is_close (request_hook c req) = 0%nat /\
  count is_send (request_hook c req) = 0%nat /\
  count is_read (response_hook c o) = 0%nat /\
  count is_close (response_hook c o) = 0%nat /\
  count is_send (response_hook c o) = 0%nat.
Proof.
  unfold request_hook, response_hook.
  destruct (Client_Logger c); [destruct o as [[r|e]|m]|];
    repeat split; repeat constructor.
Qed.

(** What a call appends to the trace once its request is built: the
    events of [Do] on that request under the caller's context and, when
    [Do] returned a response, one read and one close. *)
Lemma CallAPIWithContext_trace
    (ctx : Context) (method path : string)
    (reqBody : option ReqBodyT) (resType : option TargetT) (s : St) (req : Request) :
  fst (NewRequest env method path reqBody s) = Ret (inl req) ->
  let r := CallAPIWithContext env ctx method path reqBody resType s in
  exists t k,
    trace (world (snd r)) = (trace (world s) ++ t)%list /\
    Forall (uses_request (WithContext req ctx)) t /\
    (1 <= count is_send t <= 3)%nat /\
    (k <= 1)%nat /\
    count is_read t = k /\ count is_close t = k /\
    (fst r = Ret None -> k = 1%nat).
Proof.
  intros H. cbv zeta. unfold CallAPIWithContext, bind.
  destruct (NewRequest_cases env method path reqBody s) as [[e E]|[r E]];
    rewrite E in *; cbn [fst] in H; [discriminate H|].
  injection H as ->.
  set (s1 := mkSt (with_request_timeout (self s)) (world s)).
  set (rq := WithContext req ctx).
  destruct (Do_trace_full env rq s1) as (r0 & t & B & HK & T).
  destruct (retry_blocks_events rq t B) as (BF & BR & BC & _).
  destruct (hooks_quiet (self s1) rq (fst (Do env rq s1)))
    as (Q1 & Q2 & Q3 & Q4 & Q5 & Q6 & Q7 & Q8).
  assert (HF : Forall (uses_request rq)
                 (request_hook (self s1) rq ++
                  EvWait (Ctx rq) r0 :: EvSend rq :: t ++
                  response_hook (self s1) (fst (Do env rq s1)))).
  { apply Forall_app. split; [exact Q1|].
    constructor; [reflexivity|]. constructor; [reflexivity|].
    apply Forall_app. split; assumption. }
  assert (HC : forall p, p (EvWait (Ctx rq) r0) = false ->
                 count p (request_hook (self s1) rq ++
                          EvWait (Ctx rq) r0 :: EvSend rq :: t ++
                          response_hook (self s1) (fst (Do env rq s1))) =
                 (count p (request_hook (self s1) rq) +
                  ((if p (EvSend rq) then 1 else 0) + (count p t +
                   count p (response_hook (self s1) (fst (Do env rq s1))))))%nat).
  { intros p Hp. rewrite count_app. f_equal.
    unfold count at 1. cbn [filter]. rewrite Hp.
    destruct (p (EvSend rq)); cbn [List.length];
      fold (count p (t ++ response_hook (self s1) (fst (Do env rq s1))));
      rewrite count_app; reflexivity. }
  change (world s) with (world s1).
  destruct (Do env rq s1) as [[[resp|err]|m] s2]; cbn [fst snd] in *.
  - rewrite UnmarshalResponse_closes, T, <- app_assoc.
    eexists. exists 1%nat. split; [reflexivity|].
    split.
    { apply Forall_app. split; [exact HF|repeat constructor]. }
    rewrite !(count_app _ (_ ++ _) [_; _]), !HC by reflexivity.
    rewrite Q3, Q4, Q5, Q6, Q7, Q8, BR, BC. cbn. repeat split; lia.
  - eexists. exists 0%nat. split; [exact T|]. split; [exact HF|].
    rewrite !HC by reflexivity.
    rewrite Q3, Q4, Q5, Q6, Q7, Q8, BR, BC. cbn.
    repeat split; try lia. discriminate.
  - eexists. exists 0%nat. split; [exact T|]. split; [exact HF|].
    rewrite !HC by reflexivity.
    rewrite Q3, Q4, Q5, Q6, Q7, Q8, BR, BC. cbn.
    repeat split; try lia. discriminate.
Qed.

(** X15: one request per call.  Once its request is built, a call makes
    between one and three sends, each of them of that request under the
    caller's context, and every limiter wait is on the caller's
    context. *)
Theorem CallAPIWithContext_sends_built_request
    (ctx : Context) (method path : string)
    (reqBody : option ReqBodyT) (resType : option TargetT) (s : St) (req : Request) :
  fst (NewRequest env method path reqBody s) = Ret (inl req) ->
  exists t,
    trace (world (snd (CallAPIWithContext env ctx method path reqBody resType s))) =
      (trace (world s) ++ t)%list /\
    Forall (uses_request (WithContext req ctx)) t /\
    (1 <= count is_send t <= 3)%nat.
Proof.
  intros H.
  destruct (CallAPIWithContext_trace ctx method path reqBody resType s req H)
    as (t & k & T & F & C & _).
  exists t. auto.
Qed.

(** X16: one body per call.  Once its request is built, a call reads at
    most one response body and closes exactly as many bodies as it read;
    a call that returns nil has read and closed one. *)
Theorem CallAPIWithContext_reads_one_body
    (ctx : Context) (method path : string)
    (reqBody : option ReqBodyT) (resType : option TargetT) (s : St) (req : Request) :
  fst (NewRequest env method path reqBody s) = Ret (inl req) ->
  let r := CallAPIWithContext env ctx method path reqBody resType s in
  exists k : nat,
    (k <= 1)%nat /\
    count is_read (trace (world (snd r))) = (count is_read (trace (world s)) + k)%nat /\
    count is_close (trace (world (snd r))) = (count is_close (trace (world s)) + k)%nat /\
    (fst r = Ret None -> k = 1%nat).
Proof.
  intros H. cbv zeta.
  destruct (CallAPIWithContext_trace ctx method path reqBody resType s req H)
    as (t & k & T & _ & _ & HK & HR & HC & HN).
  exists k. rewrite T, !count_app, HR, HC. auto.
Qed.
End CallFacts2.

Section ClientFacts.
Context {ReqBodyT TargetT : Type}.
Variable env : Env ReqBodyT TargetT.

Lemma NewClient_unfold (useOTE : bool) (apiKey apiSecret : string) (w : World) :
  let v := validate env (mkSt (fresh_client useOTE apiKey apiSecret) w) in
  NewClient env useOTE apiKey apiSecret w =
  match fst v with
  | Panic msg => (Panic msg, world (snd v))
  | Ret None => (Ret (inl (self (snd v))), world (snd v))
  | Ret (Some err) =>
      match errors_As_APIError err with
      | Some apiErr =>
          if negb (String.eqb (Code apiErr) ErrCodeQuotaExceeded)
          then (Ret (inr err), world (snd v))
          else (Ret (inl (self (snd v))), world (snd v))
      | None => (Ret (inl (self (snd v))), world (snd v))
      end
  end.
Proof.
  cbv zeta. unfold NewClient. fold (fresh_client useOTE apiKey apiSecret).
  cbv zeta.
  destruct (validate env (mkSt (fresh_client useOTE apiKey apiSecret) w))
    as [[[e|]|m] s]; reflexivity.
Qed.

(** X17: the client that [NewClient] returns.  It holds the given key and
    secret, the OTE or the production endpoint, a timeout of 180 seconds,
    a limiter of one token per second with a burst of 60, and no logger;
    the timeout of its [http.Client] is 180 seconds as soon as the
    validation request could be built (and still 0 otherwise). *)
Theorem NewClient_client
    (useOTE : bool) (apiKey apiSecret : string) (w w' : World) (c : Client) :
  NewClient env useOTE apiKey apiSecret w = (Ret (inl c), w') ->
  APIKey c = apiKey /\ APISecret c = apiSecret /\
  APIEndPoint c =
    (if useOTE then "https://api.ote-godaddy.com" else "https://api.godaddy.com")%string /\
  Timeout c = 180 * Second /\
  Ratelimiter c = mkLimiter Second 60 /\
  Client_Logger c = None /\
  (hcTimeout (Client_Client c) = 180 * Second \/
   hcTimeout (Client_Client c) = 0 /\
   exists err, fst (NewRequest env "GET" (domainsURI env) None
                      (mkSt (fresh_client useOTE apiKey apiSecret) w)) = Ret (inr err)).
Proof.
  rewrite NewClient_unfold. cbv zeta.
  set (s0 := mkSt (fresh_client useOTE apiKey apiSecret) w).
  assert (HC : c = self (snd (validate env s0)) ->
     APIKey c = apiKey /\ APISecret c = apiSecret /\
     APIEndPoint c =
       (if useOTE then "https://api.ote-godaddy.com" else "https://api.godaddy.com")%string /\
     Timeout c = 180 * Second /\
     Ratelimiter c = mkLimiter Second 60 /\
     Client_Logger c = None /\
     (hcTimeout (Client_Client c) = 180 * Second \/
      hcTimeout (Client_Client c) = 0 /\
      exists err, fst (NewRequest env "GET" (domainsURI env) None s0) = Ret (inr err))).
  { intros ->. unfold validate, Get, CallAPI. rewrite CallAPIWithContext_self.
    destruct (NewRequest_cases env "GET" (domainsURI env) None s0) as [[e E]|[r E]];
      rewrite E; cbn [fst snd self s0];
      repeat split; try reflexivity.
    - right. split; [reflexivity|]. exists e. reflexivity.
    - left. reflexivity. }
  destruct (fst (validate env s0)) as [[e|]|m].
  - destruct (errors_As_APIError e) as [a|].
    + destruct (negb _); intros H; [discriminate H|].
      injection H as <- _. apply HC. reflexivity.
    + intros H. injection H as <- _. apply HC. reflexivity.
  - intros H. injection H as <- _. apply HC. reflexivity.
  - discriminate.
Qed.

(** X18: when [NewClient] fails.  [NewClient] returns an error exactly
    when the validation call returns one in which [errors.As] finds an
    [*APIError] whose code is not [QUOTA_EXCEEDED], and it returns that
    very error; every other validation failure (a transport error, a
    body that cannot be read or decoded, a request that cannot be built)
    is dropped. *)
Theorem NewClient_fails_iff
    (useOTE : bool) (apiKey apiSecret : string) (w : World) (err : error) :
  fst (NewClient env useOTE apiKey apiSecret w) = Ret (inr err) <->
  fst (validate env (mkSt (fresh_client useOTE apiKey apiSecret) w)) = Ret (Some err) /\
  exists apiErr,
    errors_As_APIError err = Some apiErr /\ Code apiErr <> ErrCodeQuotaExceeded.
Proof.
  rewrite NewClient_unfold. cbv zeta.
  destruct (fst (validate env _)) as [[e|]|m].
  - destruct (errors_As_APIError e) as [a|] eqn:EA.
    + destruct (String.eqb (Code a) ErrCodeQuotaExceeded) eqn:EQ; cbn [negb fst].
      * apply String.eqb_eq in EQ. split.
        -- discriminate.
        -- intros [H (a' & HA & HC)]. injection H as ->.
           rewrite EA in HA. injection HA as <-. contradiction.
      * apply String.eqb_neq in EQ. split.
        -- intros H. injection H as <-. split; [reflexivity|].
           exists a. auto.
        -- intros [H _]. injection H as ->. reflexivity.
    + cbn [fst]. split; [discriminate|].
      intros [H (a' & HA & _)]. injection H as ->. rewrite EA in HA. discriminate.
  - cbn [fst]. split; [discriminate|]. intros [H _]. discriminate.
  - cbn [fst]. split; [discriminate|]. intros [H _]. discriminate.
Qed.

(** X19: what the validation does.  [NewClient] makes at most three
    sends, all of them of a [GET] on the endpoint followed by
    [domainsURI], under the background context and without a body or a
    [Content-Type]; no logger hook is called, and at most one response
    body is read and closed. *)
Theorem NewClient_validation_request
    (useOTE : bool) (apiKey apiSecret : string) (w : World) :
  let c0 := fresh_client useOTE apiKey apiSecret in
  let w' := snd (NewClient env useOTE apiKey apiSecret w) in
  exists t,
    trace w' = (trace w ++ t)%list /\
    (count is_send t <= 3)%nat /\
    count is_log t = 0%nat /\
    (count is_read t <= 1)%nat /\
    count is_close t = count is_read t /\
    Forall (fun e =>
              match e with
              | EvSend r =>
                  Method r = "GET"%string /\
                  URL r = (APIEndPoint c0 ++ domainsURI env)%string /\
                  Ctx r = Background /\
                  ReqBody r = EmptyString /\
                  Header_lookup (ReqHeader r) "Content-Type" = []
              | EvWait ctx _ => ctx = Background
              | _ => True
              end) t.
Proof.
  cbv zeta.
  set (s0 := mkSt (fresh_client useOTE apiKey apiSecret) w).
  assert (HW : world (snd (validate env s0)) =
               snd (NewClient env useOTE apiKey apiSecret w)).
  { rewrite NewClient_unfold. cbv zeta. fold s0.
    destruct (fst (validate env s0)) as [[e|]|m]; try reflexivity.
    destruct (errors_As_APIError e) as [a|]; [destruct (negb _)|]; reflexivity. }
  rewrite <- HW. unfold validate, Get, CallAPI, CallAPIWithContext, bind.
  destruct (NewRequest env "GET" (domainsURI env) None s0) as [o s1] eqn:EN.
  destruct (NewRequest_cases env "GET" (domainsURI env) None s0) as [[e E]|[r E]];
    rewrite E in EN; injection EN as <- <-.
  - exists []. cbn. rewrite app_nil_r. repeat split; auto.
  - pose proof (NewRequest_built env "GET" (domainsURI env) None s0 r) as HB.
    rewrite E in HB. specialize (HB eq_refl).
    destruct HB as (B1 & B2 & B3 & _ & _ & _ & B4 & B5).
    set (rq := WithContext r Background).
    set (s1 := mkSt (with_request_timeout (self s0)) (world s0)).
    change (mkSt (with_request_timeout (fresh_client useOTE apiKey apiSecret)) w)
      with s1.
    destruct (Do_trace_full env rq s1) as (r0 & t & B & HK & T).
    destruct (retry_blocks_events rq t B) as (BF & BR & BC & BL).
    assert (HP : forall e, uses_request rq e ->
               match e with
               | EvSend r1 =>
                   Method r1 = "GET"%string /\
                   URL r1 = (APIEndPoint (fresh_client useOTE apiKey apiSecret)
                               ++ domainsURI env)%string /\
                   Ctx r1 = Background /\
                   ReqBody r1 = EmptyString /\
                   Header_lookup (ReqHeader r1) "Content-Type" = []
               | EvWait ctx _ => ctx = Background
               | _ => True
               end).
    { intros [] HU; cbn in HU; try exact I.
      - subst ctx. reflexivity.
      - subst req. cbn. auto. }
    assert (HH : request_hook (self s1) rq = [] /\
                 forall o, response_hook (self s1) o = []) by (split; reflexivity).
    destruct HH as [H1 H2]. rewrite H1, H2, app_nil_r in T. cbn [app] in T.
    change (trace w) with (trace (world s1)).
    destruct (Do env rq s1) as [[[resp|err]|m] s2]; cbn [fst snd] in *.
    + rewrite UnmarshalResponse_closes, T, <- app_assoc.
      eexists. split; [reflexivity|].
      cbn [app]. unfold count in *. cbn [filter is_send is_log is_log_request
        is_log_response is_read is_close orb List.length].
      rewrite !filter_app, !length_app. cbn [filter is_send is_log is_log_request
        is_log_response is_read is_close orb List.length].
      rewrite BR, BC, BL.
      repeat split; try lia.
      constructor; [reflexivity|]. constructor; [apply (HP (EvSend rq)); reflexivity|].
      apply Forall_app. split; [|repeat constructor].
      eapply Forall_impl; [exact HP|exact BF].
    + eexists. split; [exact T|].
      unfold count in *. cbn [filter is_send is_log is_log_request
        is_log_response is_read is_close orb List.length].
      rewrite BR, BC, BL.
      repeat split; try lia.
      constructor; [reflexivity|]. constructor; [apply (HP (EvSend rq)); reflexivity|].
      eapply Forall_impl; [exact HP|exact BF].
    + eexists. split; [exact T|].
      unfold count in *. cbn [filter is_send is_log is_log_request
        is_log_response is_read is_close orb List.length].
      rewrite BR, BC, BL.
      repeat split; try lia.
      constructor; [reflexivity|]. constructor; [apply (HP (EvSend rq)); reflexivity|].
      eapply Forall_impl; [exact HP|exact BF].
Qed.

(** X20: members that select no field.  Decoding an object into
    [APIError] only looks at the members whose name selects [Code] or
    [Message]: every other member of the error envelope (such as
    [fields]) is ignored, whatever its value. *)
Theorem decode_APIError_ignores_other_members
    (members : list (string * JSON)) (a : APIError) :
  decode_APIError (JObject members) a =
  decode_APIError
    (JObject (filter (fun kv : string * JSON => selects_field (fst kv)) members)) a.
Proof.
  cbn [decode_APIError]. generalize (a, @None error) as st.
  induction members as [|[key v] rest IH]; intros st; [reflexivity|].
  cbn [fold_left filter fst]. unfold selects_field at 1.
  destruct (field_matches "Code" key) eqn:EC.
  - cbn [orb fold_left]. apply IH.
  - destruct (field_matches "Message" key) eqn:EM; cbn [orb fold_left].
    + apply IH.
    + rewrite <- IH. unfold decode_member. rewrite EC, EM. reflexivity.
Qed.
End ClientFacts.

Section Wrappers.
Context {ReqBodyT TargetT : Type}.
Variable env : Env ReqBodyT TargetT.

(** X21: persistent throttling.  When every send is answered 429 with a
    positive [Retry-After], [Do] sends three times, sleeps twice, and
    returns the third response. *)
Theorem Do_persistent_throttling (req : Request) (s : St) :
  (forall k, exists resp n,
      RoundTrip env k req = inl resp /\ StatusCode resp = 429 /\
      ParseInt (Header_Get (RespHeader resp) "Retry-After") = Some n /\ 0 < n) ->
  exists resp3 s',
    Do env req s = (Ret (inl resp3), s') /\
    RoundTrip env (2 + sends (world s)) req = inl resp3 /\
    sends (world s') = (3 + sends (world s))%nat /\
    count is_sleep (trace (world s')) = (2 + count is_sleep (trace (world s)))%nat.
Proof. apply Do_three_sends_when_throttled. Qed.

(** X22: the body is always released.  Whatever the status, the body and
    the target are, and whatever it returns, [UnmarshalResponse] reads
    the body of its response once and then closes it, and does nothing
    else. *)
Theorem UnmarshalResponse_reads_then_closes
    (resp : Response) (resType : option TargetT) (s : St) :
  trace (world (snd (UnmarshalResponse env resp resType s))) =
    (trace (world s) ++ [EvReadAll (BodyId resp); EvClose (BodyId resp)])%list /\
  sends (world (snd (UnmarshalResponse env resp resType s))) = sends (world s) /\
  waits (world (snd (UnmarshalResponse env resp resType s))) = waits (world s) /\
  self (snd (UnmarshalResponse env resp resType s)) = self s.
Proof.
  rewrite UnmarshalResponse_closes, UnmarshalResponse_unfold.
  repeat split.
Qed.
End Wrappers.

(** ** Further runs in concrete worlds *)

Module Runs2.
Import Scenario Scenario2.

Lemma Do_returns_last_answer_witness :
  let env := env_of throttled_once granted zeros in
  Do env (request0 Background) (s0 None) =
    (Ret (inl (ok_empty 1)), snd (Do env (request0 Background) (s0 None))) /\
  RoundTrip env 1 (request0 Background) = inl (ok_empty 1).
Proof.
  intros env.
  assert (H : Do env (request0 Background) (s0 None) =
              (Ret (inl (ok_empty 1)), snd (Do env (request0 Background) (s0 None))))
    by reflexivity.
  split; [exact H|].
  apply (Do_returns_last_answer env (request0 Background) (s0 None) _ _ H).
Defined.

Lemma Do_without_throttling_witness :
  let env := env_of unreachable granted zeros in
  match RoundTrip env 0 (request0 Background) with
  | inl resp => StatusCode resp <> 429
  | inr _ => True
  end /\
  fst (Do env (request0 Background) (s0 None)) =
    Ret (inr (ErrTransport "dial tcp: connection refused")).
Proof.
  intros env.
  assert (H : match RoundTrip env (sends (world (s0 None))) (request0 Background) with
              | inl resp => StatusCode resp <> 429
              | inr _ => True
              end) by exact I.
  split; [exact H|].
  apply (Do_without_throttling env (request0 Background) (s0 None) H).
Defined.

Lemma Do_recovers_witness :
  let env := env_of throttled_once granted zeros in
  (StatusCode (throttled 0 "1") = 429 /\ 0 < 1 /\ StatusCode (ok_empty 1) <> 429) /\
  fst (Do env (request0 Background) (s0 None)) = Ret (inl (ok_empty 1)).
Proof.
  intros env.
  assert (H : StatusCode (throttled 0 "1") = 429 /\ 0 < 1 /\
              StatusCode (ok_empty 1) <> 429)
    by (repeat split; discriminate).
  split; [exact H|]. destruct H as (H1 & H2 & H3).
  apply (Do_recovers_after_one_retry env (request0 Background) (s0 None)
           (throttled 0 "1") (ok_empty 1) 1 eq_refl H1 eq_refl H2 eq_refl H3).
Defined.

Lemma Do_retry_transport_failure_witness :
  let env := env_of throttled_then_down granted zeros in
  (StatusCode (throttled 0 "1") = 429 /\ 0 < 1) /\
  fst (Do env (request0 Background) (s0 None)) =
    Ret (inr (ErrWrap "doing request after waiting for retry after"
                (ErrTransport "dial tcp: connection refused"))).
Proof.
  intros env.
  assert (H : StatusCode (throttled 0 "1") = 429 /\ 0 < 1) by (split; reflexivity).
  split; [exact H|]. destruct H as (H1 & H2).
  apply (Do_retry_transport_failure env (request0 Background) (s0 None)
           (throttled 0 "1") 1 _ eq_refl H1 eq_refl H2 eq_refl).
Defined.

Lemma Do_three_sends_witness :
  let env := env_of (always_throttled "1") granted zeros in
  (forall k, exists resp n,
      RoundTrip env k (request0 Background) = inl resp /\ StatusCode resp = 429 /\
      ParseInt (Header_Get (RespHeader resp) "Retry-After") = Some n /\ 0 < n) /\
  exists resp3 s',
    Do env (request0 Background) (s0 None) = (Ret (inl resp3), s') /\
    sends (world s') = 3%nat.
Proof.
  intros env.
  assert (H : forall k, exists resp n,
      RoundTrip env k (request0 Background) = inl resp /\ StatusCode resp = 429 /\
      ParseInt (Header_Get (RespHeader resp) "Retry-After") = Some n /\ 0 < n).
  { intros k. exists (throttled k "1"), 1. repeat split. }
  split; [exact H|].
  destruct (Do_persistent_throttling env (request0 Background) (s0 None) H)
    as (r3 & s' & E & _ & HS & _).
  exists r3, s'. split; [exact E | exact HS].
Defined.

Lemma sleepTime_bounds_witness :
  (0 < 60 <= 6148914691 /\ 0 <= 59 < 60) /\
  60 * Second <= sleepTime 60 59 <= (60 + (60 - 1) / 2) * Second.
Proof.
  assert (H : 0 < 60 <= 6148914691 /\ 0 <= 59 < 60) by lia.
  split; [exact H|]. destruct H as [H1 H2].
  apply (sleepTime_bounds 60 59 H1 H2).
Defined.

Lemma ParseInt_sound_witness :
  ParseInt "-120" = Some (-120) /\
  int64_min <= -120 <= int64_max /\ all_digits (unsigned_part "-120") = true.
Proof.
  assert (H : ParseInt "-120" = Some (-120)) by reflexivity.
  split; [exact H|].
  destruct (ParseInt_sound "-120" (-120) H) as (H1 & _ & H3).
  split; [exact H1 | exact H3].
Defined.

Lemma ParseInt_itoa_witness :
  int64_min <= 429 <= int64_max /\ ParseInt (itoa 429) = Some 429.
Proof.
  assert (H : int64_min <= 429 <= int64_max) by (unfold int64_min, int64_max; lia).
  split; [exact H|]. apply (ParseInt_itoa 429 H).
Defined.

Lemma UnmarshalResponse_2xx_witness :
  let env := env_of always_ok granted zeros in
  (200 <= StatusCode (ok_json 0) < 300 /\
   BodyData (ok_json 0) = inl "[]"%string) /\
  fst (UnmarshalResponse env (ok_json 0) None (s0 None)) = Ret None /\
  fst (UnmarshalResponse env (ok_json 0) (Some tt) (s0 None)) = Ret None.
Proof.
  intros env.
  assert (H : 200 <= StatusCode (ok_json 0) < 300 /\
              BodyData (ok_json 0) = inl "[]"%string)
    by (split; [cbn; lia | reflexivity]).
  split; [exact H|]. destruct H as [H1 H2].
  split.
  - apply (UnmarshalResponse_2xx env (ok_json 0) None (s0 None) "[]" H1 H2).
    right. reflexivity.
  - destruct (UnmarshalResponse_2xx env (ok_json 0) (Some tt) (s0 None) "[]" H1 H2)
      as (_ & HT & _).
    rewrite (HT tt eq_refl) by discriminate. reflexivity.
Defined.

Lemma UnmarshalResponse_read_failure_witness :
  let env := env_of always_ok granted zeros in
  BodyData (truncated 0) = inr (ErrRead "unexpected EOF") /\
  fst (UnmarshalResponse env (truncated 0) (Some tt) (s0 None)) =
    Ret (Some (ErrRead "unexpected EOF")).
Proof.
  intros env.
  assert (H : BodyData (truncated 0) = inr (ErrRead "unexpected EOF")) by reflexivity.
  split; [exact H|].
  apply (UnmarshalResponse_read_failure env (truncated 0) (Some tt) (s0 None) _ H).
Defined.


Lemma NewRequest_timeout_stable_witness :
  let env := env_of always_ok granted zeros in
  let s1 := snd (NewRequest env "GET" "/v1/domains" None (s0 None)) in
  (exists req, fst (NewRequest env "GET" "/v1/domains" None (s0 None)) = Ret (inl req)) /\
  snd (NewRequest env "DELETE" "/v1/domains/example.org" None s1) = s1.
Proof.
  intros env s1. split; [eexists; reflexivity|].
  apply (NewRequest_timeout_stable env "GET" "/v1/domains" "DELETE"
           "/v1/domains/example.org" None None (s0 None) _ eq_refl).
Defined.

Lemma CallAPIWithContext_request_error_witness :
  let env := env_strict always_ok in
  fst (NewRequest env "BAD METHOD" "/v1/domains" None (s0 None)) =
    Ret (inr (ErrNewRequest "net/http: invalid method")) /\
  CallAPIWithContext env (Derived 1) "BAD METHOD" "/v1/domains" None None (s0 None) =
    (Ret (Some (ErrNewRequest "net/http: invalid method")), s0 None).
Proof.
  intros env.
  assert (H : fst (NewRequest env "BAD METHOD" "/v1/domains" None (s0 None)) =
              Ret (inr (ErrNewRequest "net/http: invalid method"))) by reflexivity.
  split; [exact H|].
  apply (CallAPIWithContext_request_error env (Derived 1) "BAD METHOD" "/v1/domains"
           None None (s0 None) _ H).
Defined.

Lemma CallAPIWithContext_sends_witness :
  let env := env_of throttled_once granted zeros in
  (exists req, fst (NewRequest env "GET" "/v1/domains" None (s0 None)) = Ret (inl req)) /\
  exists t,
    trace (world (snd (CallAPIWithContext env (Derived 1) "GET" "/v1/domains"
                         None None (s0 None)))) = (trace (world (s0 None)) ++ t)%list /\
    (1 <= count is_send t <= 3)%nat.
Proof.
  intros env. split; [eexists; reflexivity|].
  destruct (CallAPIWithContext_sends_built_request env (Derived 1) "GET" "/v1/domains"
              None None (s0 None) _ eq_refl) as (t & T & _ & C).
  exists t. split; [exact T | exact C].
Defined.

Lemma CallAPIWithContext_reads_witness :
  let env := env_of throttled_once granted zeros in
  (exists req, fst (NewRequest env "GET" "/v1/domains" None (s0 None)) = Ret (inl req)) /\
  count is_close
    (trace (world (snd (CallAPIWithContext env Background "GET" "/v1/domains"
                          None None (s0 None))))) = 1%nat.
Proof.
  intros env. split; [eexists; reflexivity|].
  destruct (CallAPIWithContext_reads_one_body env Background "GET" "/v1/domains"
              None None (s0 None) _ eq_refl) as (k & _ & _ & HC & HN).
  rewrite HC, (HN eq_refl). reflexivity.
Defined.

Lemma NewClient_client_witness :
  let env := env_of always_ok granted zeros in
  (exists c w', NewClient env true "key" "secret" World0 = (Ret (inl c), w')) /\
  APIEndPoint (with_request_timeout (fresh_client true "key" "secret")) =
    "https://api.ote-godaddy.com"%string.
Proof.
  intros env.
  assert (H : NewClient env true "key" "secret" World0 =
              (Ret (inl (with_request_timeout (fresh_client true "key" "secret"))),
               snd (NewClient env true "key" "secret" World0))) by reflexivity.
  split; [eexists; eexists; exact H|].
  apply (NewClient_client env true "key" "secret" World0 _ _ H).
Defined.

Lemma NewClient_fails_iff_witness :
  let env := env_of (always (fun k => failed k 401 "UNABLE_TO_AUTHENTICATE" "bad key"))
               granted zeros in
  fst (NewClient env false "key" "secret" World0) =
    Ret (inr (ErrAPI (mkAPIError "UNABLE_TO_AUTHENTICATE" "bad key"))).
Proof.
  intros env.
  apply (NewClient_fails_iff env false "key" "secret" World0).
  split; [reflexivity|].
  exists (mkAPIError "UNABLE_TO_AUTHENTICATE" "bad key").
  split; [reflexivity|discriminate].
Defined.
End Runs2.
